(** * Long-Distance Call Cost Calculator: a shallow embedding of [main.cpp]

    The program reads a weekday, a start time and a call length from
    standard input and prints the cost of the call.  This file embeds the
    data class, the three input loops, the rate calculator and [main] as
    Rocq functions, and proves the properties of the specification about
    them.

    Conventions of the embedding:
    - a C++ [int] is a [Z] in the range [INT_MIN .. INT_MAX]; the two
      places where the source converts text to [int] check the range the
      way the library routine they call does;
    - a C++ [float] is an IEEE-754 binary32 number, modelled by the
      [spec_float] operations of the Standard Library at precision 24 and
      maximal exponent 128;
    - [std::cin] is the text still to be read together with its sticky
      fail bit, [std::cout] is the text written so far;
    - a local variable that no extraction has written is [None]; using it
      is undefined in C++ and ends the run of the model as
      [Indeterminate]. *)

From Stdlib Require Import ZArith List Bool Ascii String Lia.
From Stdlib Require Import Floats.SpecFloat.
From Stdlib Require Import DecimalString DecimalPos.
Import ListNotations.

Local Open Scope string_scope.
Local Open Scope Z_scope.

(** ** The enumeration [weekday] *)

Module weekday.

Inductive t : Set :=
| None
| Monday
| Tuesday
| Wednesday
| Thursday
| Friday
| Saturday
| Sunday.

(** [static_cast<int>] on the enumeration. *)
Definition to_int (w : t) : Z :=
  match w with
  | None => 0
  | Monday => 1
  | Tuesday => 2
  | Wednesday => 3
  | Thursday => 4
  | Friday => 5
  | Saturday => 6
  | Sunday => 7
  end.

Definition eqb (a b : t) : bool := to_int a =? to_int b.

End weekday.

(** ** Binary32 arithmetic *)

Module F32.

Definition prec : Z := 24.
Definition emax : Z := 128.

Definition float : Set := spec_float.

(** [static_cast<float>(n)]: the nearest binary32 number, ties to even. *)
Definition of_int (n : Z) : float := binary_normalize prec emax n 0 false.

Definition mul (x y : float) : float := SFmul prec emax x y.
Definition div (x y : float) : float := SFdiv prec emax x y.

(** The literal [p/q] written in decimal in the source and read as a
    [float]: the binary32 number nearest to the quotient. *)
Definition literal (p q : Z) : float := div (of_int p) (of_int q).

End F32.

(** [std::to_string] on an [int], which is also how [operator<<] writes
    one: decimal digits, a minus sign for a negative number, no padding. *)
Definition to_string (n : Z) : string := NilZero.string_of_int (Z.to_int n).

(** ** The data class [long_distance_call_data] *)

Module long_distance_call_data.

Record t : Set := mk {
  weekday_ : weekday.t;
  hour_ : Z;
  minutes_ : Z;
  length_of_call_ : Z
}.

(** The default member initialisers: [weekday_{weekday::Monday}],
    [hour_{24}], [minutes_{00}], [length_of_call_{}]. *)
Definition default : t :=
  {| weekday_ := weekday.Monday; hour_ := 24; minutes_ := 0;
     length_of_call_ := 0 |}.

Definition set_weekday (in_weekday : weekday.t) (d : t) : t :=
  {| weekday_ := in_weekday; hour_ := hour_ d; minutes_ := minutes_ d;
     length_of_call_ := length_of_call_ d |}.

Definition set_hour (in_hour : Z) (d : t) : t :=
  {| weekday_ := weekday_ d; hour_ := in_hour; minutes_ := minutes_ d;
     length_of_call_ := length_of_call_ d |}.

Definition set_minute (in_minute : Z) (d : t) : t :=
  {| weekday_ := weekday_ d; hour_ := hour_ d; minutes_ := in_minute;
     length_of_call_ := length_of_call_ d |}.

Definition set_length_of_call (in_length : Z) (d : t) : t :=
  {| weekday_ := weekday_ d; hour_ := hour_ d; minutes_ := minutes_ d;
     length_of_call_ := in_length |}.

Definition get_weekday (d : t) : weekday.t := weekday_ d.
Definition get_hour (d : t) : Z := hour_ d.
Definition get_minutes (d : t) : Z := minutes_ d.
Definition get_length_of_call (d : t) : Z := length_of_call_ d.

(** [weekday_strings_], the table behind [get_text_for_enum]. *)
Definition weekday_strings_ : list string :=
  ["None"; "Monday"; "Tuesday"; "Wednesday"; "Thursday"; "Friday";
   "Saturday"; "Sunday"].

Definition get_text_for_enum (enum_val : Z) : string :=
  nth (Z.to_nat enum_val) weekday_strings_ EmptyString.

(** The hour, a colon, and the minutes; the minutes are written twice
    when they are zero. *)
Definition get_time_formatted (d : t) : string :=
  if minutes_ d =? 0
  then to_string (hour_ d) ++ ":" ++ to_string (minutes_ d)
         ++ to_string (minutes_ d)
  else to_string (hour_ d) ++ ":" ++ to_string (minutes_ d).

End long_distance_call_data.

(** ** Characters *)

Definition newline : ascii := "010"%char.
Definition nl : string := String newline EmptyString.

(** [isspace], [isdigit], [isalpha] and [tolower] of the "C" locale. *)
Definition isspace (ch : ascii) : bool :=
  let n := N_of_ascii ch in ((n =? 32) || ((9 <=? n) && (n <=? 13)))%N.

Definition isdigit (ch : ascii) : bool :=
  let n := N_of_ascii ch in ((48 <=? n) && (n <=? 57))%N.

Definition isupper (ch : ascii) : bool :=
  let n := N_of_ascii ch in ((65 <=? n) && (n <=? 90))%N.

Definition islower (ch : ascii) : bool :=
  let n := N_of_ascii ch in ((97 <=? n) && (n <=? 122))%N.

Definition isalpha (ch : ascii) : bool := isupper ch || islower ch.

Definition tolower (ch : ascii) : ascii :=
  if isupper ch then ascii_of_N (N_of_ascii ch + 32) else ch.

Definition digit_value (ch : ascii) : Z := Z.of_N (N_of_ascii ch) - 48.

(** ** The console: [std::cin] and [std::cout] *)

Record console : Set := mk_console {
  cin : string;      (* the characters of standard input not yet extracted *)
  failbit : bool;    (* the fail bit of [std::cin]; the program never clears it *)
  cout : string      (* everything written to [std::cout] so far *)
}.

Inductive exception : Set :=
| invalid_argument
| out_of_range.

(** How a piece of the program can end. *)
Inductive outcome (A : Type) : Type :=
| Ok (a : A) (c : console)
    (* it returns [a] *)
| Indeterminate (c : console)
    (* it uses a variable that nothing has written: undefined behaviour *)
| Terminate (e : exception) (c : console)
    (* an exception leaves [main]: [std::terminate] aborts the process *)
| OutOfFuel.
    (* the loop bound of the model is used up *)

Arguments Ok {A} a c.
Arguments Indeterminate {A} c.
Arguments Terminate {A} e c.
Arguments OutOfFuel {A}.

Definition io (A : Type) : Type := console -> outcome A.

Definition ret {A} (a : A) : io A := fun c => Ok a c.

Definition bind {A B} (m : io A) (k : A -> io B) : io B :=
  fun c =>
    match m c with
    | Ok a c' => k a c'
    | Indeterminate c' => Indeterminate c'
    | Terminate e c' => Terminate e c'
    | OutOfFuel => OutOfFuel
    end.

Declare Scope io_scope.
Delimit Scope io_scope with io.
Notation "x <- m ;; k" := (bind m (fun x => k))
  (at level 61, m at next level, right associativity) : io_scope.
Notation "m ;; k" := (bind m (fun _ => k))
  (at level 61, right associativity) : io_scope.
Local Open Scope io_scope.

(** [std::cout << s]. *)
Definition print (s : string) : io unit :=
  fun c => Ok tt (mk_console (cin c) (failbit c) (cout c ++ s)).

(** [std::cout << std::endl]. *)
Definition endl : io unit := print nl.

(** Reading a local variable: [None] is a variable that was declared
    without an initialiser and that no extraction has written. *)
Definition use {A} (v : option A) : io A :=
  fun c => match v with Some a => Ok a c | None => Indeterminate c end.

Definition throw {A} (e : exception) : io A := fun c => Terminate e c.

(** *** Limits of [int] *)

Definition INT_MAX : Z := 2147483647.
Definition INT_MIN : Z := -2147483648.

(** *** Scanning *)

(** The leading white space that a formatted extraction skips. *)
Fixpoint skipws (s : string) : string :=
  match s with
  | String ch rest => if isspace ch then skipws rest else s
  | EmptyString => s
  end.

(** The decimal digits at the front of [s], accumulated onto [acc]. *)
Fixpoint read_digits (s : string) (acc : Z) : Z * string :=
  match s with
  | String ch rest =>
      if isdigit ch then read_digits rest (10 * acc + digit_value ch)
      else (acc, s)
  | EmptyString => (acc, s)
  end.

(** An optional sign at the front of [s]. *)
Definition read_sign (s : string) : bool * string :=
  match s with
  | String ch rest =>
      if Ascii.eqb ch "-" then (true, rest)
      else if Ascii.eqb ch "+" then (false, rest)
      else (false, s)
  | EmptyString => (false, s)
  end.

Definition starts_with_digit (s : string) : bool :=
  match s with
  | String ch _ => isdigit ch
  | EmptyString => false
  end.

(** What [num_get] does for an [int] on text that starts at a character
    that is not white space: the value stored, whether the conversion
    succeeded, and the text left.  With no digit the value is 0 and the
    conversion fails; a number out of range is stored as the nearest
    limit and the conversion fails. *)
Definition scan_int (s : string) : Z * bool * string :=
  let '(negative, s1) := read_sign s in
  if starts_with_digit s1 then
    let '(v, rest) := read_digits s1 0 in
    let n := if negative then - v else v in
    if n >? INT_MAX then (INT_MAX, false, rest)
    else if n <? INT_MIN then (INT_MIN, false, rest)
    else (n, true, rest)
  else (0, false, s1).

(** At most [n] characters up to the next white space. *)
Fixpoint read_token (n : nat) (s : string) : string * string :=
  match n with
  | O => (EmptyString, s)
  | S n' =>
      match s with
      | String ch rest =>
          if isspace ch then (EmptyString, s)
          else let '(tok, rest') := read_token n' rest in
               (String ch tok, rest')
      | EmptyString => (EmptyString, s)
      end
  end.

(** The text after the first newline; nothing when there is none. *)
Fixpoint drop_line (s : string) : string :=
  match s with
  | String ch rest => if Ascii.eqb ch newline then rest else drop_line rest
  | EmptyString => EmptyString
  end.

(** *** Extractions

    Each returns what it has written into its variable, [None] when it has
    written nothing.  Once the fail bit is set every extraction and
    [ignore] leaves the stream and the variables alone. *)

(** [std::cin >> ch] for a [char]. *)
Definition extract_char : io (option ascii) :=
  fun c =>
    if failbit c then Ok Datatypes.None c
    else match skipws (cin c) with
         | EmptyString => Ok Datatypes.None (mk_console EmptyString true (cout c))
         | String ch rest => Ok (Some ch) (mk_console rest false (cout c))
         end.

(** [std::cin >> n] for an [int]. *)
Definition extract_int : io (option Z) :=
  fun c =>
    if failbit c then Ok Datatypes.None c
    else match skipws (cin c) with
         | EmptyString => Ok Datatypes.None (mk_console EmptyString true (cout c))
         | String ch rest =>
             let '(v, good, rest') := scan_int (String ch rest) in
             Ok (Some v) (mk_console rest' (negb good) (cout c))
         end.

(** [std::cin >> buf] for a [char buf[size]]: the characters up to the
    next white space, of which at most [size - 1] are stored (the
    extraction into an array of known bound, as of C++20). *)
Definition extract_token (size : nat) : io (option string) :=
  fun c =>
    if failbit c then Ok Datatypes.None c
    else match skipws (cin c) with
         | EmptyString => Ok Datatypes.None (mk_console EmptyString true (cout c))
         | String ch rest =>
             let '(tok, rest') := read_token (size - 1) (String ch rest) in
             Ok (Some tok) (mk_console rest' false (cout c))
         end.

(** [std::cin.ignore(std::numeric_limits<std::streamsize>::max(), '\n')]. *)
Definition ignore_line : io unit :=
  fun c =>
    if failbit c then Ok tt c
    else Ok tt (mk_console (drop_line (cin c)) false (cout c)).

(** [std::stoi]: white space, an optional sign, decimal digits; whatever
    follows the digits is left alone.  It throws [invalid_argument] when
    there is no digit and [out_of_range] when the number is not an [int]. *)
Definition stoi (str : string) : exception + Z :=
  let '(negative, s1) := read_sign (skipws str) in
  if starts_with_digit s1 then
    let '(v, _) := read_digits s1 0 in
    let n := if negative then - v else v in
    if (n >? INT_MAX) || (n <? INT_MIN) then inl out_of_range else inr n
  else inl invalid_argument.

(** *** Writing a [float] under [std::fixed] and [std::setprecision(2)] *)

(** [num / den] rounded to the nearest integer, ties to even. *)
Definition round_half_even (num den : Z) : Z :=
  let q := num / den in
  match (2 * (num mod den) ?= den) with
  | Lt => q
  | Eq => if Z.even q then q else q + 1
  | Gt => q + 1
  end.

(** [m * 2^e] in hundredths, rounded. *)
Definition hundredths (m : positive) (e : Z) : Z :=
  match e with
  | Zneg p => round_half_even (100 * Zpos m) (2 ^ Zpos p)
  | _ => 100 * Zpos m * 2 ^ e
  end.

Definition two_digits (n : Z) : string :=
  if n <? 10 then "0" ++ to_string n else to_string n.

Definition sign_text (s : bool) : string := if s then "-" else EmptyString.

Definition show_fixed2 (x : F32.float) : string :=
  match x with
  | S754_zero s => sign_text s ++ "0.00"
  | S754_infinity s => sign_text s ++ "inf"
  | S754_nan => "nan"
  | S754_finite s m e =>
      let n := hundredths m e in
      sign_text s ++ to_string (n / 100) ++ "." ++ two_digits (n mod 100)
  end.

(** ** The rate calculator *)

(** [0.15f], [0.25f] and [0.4f] as binary32 numbers (mantissa and
    exponent); [rate_literals] below checks them against the decimal
    literals. *)
Definition weekend_rate : F32.float := S754_finite false 10066330 (-26).
Definition weekday_edge_rate : F32.float := S754_finite false 8388608 (-25).
Definition weekday_normal_rate : F32.float := S754_finite false 13421773 (-25).

Definition calculate_cost_of_call (in_data : long_distance_call_data.t) : F32.float :=
  if weekday.eqb (long_distance_call_data.get_weekday in_data) weekday.Saturday
     || weekday.eqb (long_distance_call_data.get_weekday in_data) weekday.Sunday
  then F32.mul (F32.of_int (long_distance_call_data.get_length_of_call in_data)) weekend_rate
  else if (long_distance_call_data.get_hour in_data <? 8) || (long_distance_call_data.get_hour in_data >? 18)
  then F32.mul (F32.of_int (long_distance_call_data.get_length_of_call in_data)) weekday_edge_rate
  else F32.mul (F32.of_int (long_distance_call_data.get_length_of_call in_data)) weekday_normal_rate.

(** ** The input collector *)

(** [while (!valid) { body }], where the body works on the record it was
    given by reference and says whether it has set [valid].  The C++ loop
    has no bound; the model stops as [OutOfFuel] after [fuel] rounds
    ([while_not_enough_fuel] shows that the text on standard input bounds
    the number of rounds). *)
Fixpoint while_not (fuel : nat)
    (body : long_distance_call_data.t -> io (long_distance_call_data.t * bool))
    (in_data : long_distance_call_data.t) : io long_distance_call_data.t :=
  match fuel with
  | O => fun _ => OutOfFuel
  | S fuel' =>
      r <- body in_data ;;
      if snd r then ret (fst r) else while_not fuel' body (fst r)
  end.

(** *** [get_day_of_week] *)

Definition day_prompt : string :=
  String newline
    "Please enter the day of the week you made your call (e.g. Mo, Tu, etc.): ".

Definition invalid_weekday_message : string :=
  "You entered an invalid weekday." ++ nl.

(** The [isalpha] test and the [switch] of the loop body. *)
Definition select_weekday (in_data : long_distance_call_data.t)
    (first_letter second_letter : option ascii)
    : io (long_distance_call_data.t * bool) :=
  f <- use first_letter ;;
  if negb (isalpha f) then ret (in_data, false)
  else
    s <- use second_letter ;;
    if negb (isalpha s) then ret (in_data, false)
    else if Ascii.eqb (tolower f) "m" then
      ret (long_distance_call_data.set_weekday weekday.Monday in_data, true)
    else if Ascii.eqb (tolower f) "t" then
      if Ascii.eqb (tolower s) "u" then
        ret (long_distance_call_data.set_weekday weekday.Tuesday in_data, true)
      else if Ascii.eqb (tolower s) "h" then
        ret (long_distance_call_data.set_weekday weekday.Thursday in_data, true)
      else ret (in_data, false)
    else if Ascii.eqb (tolower f) "w" then
      ret (long_distance_call_data.set_weekday weekday.Wednesday in_data, true)
    else if Ascii.eqb (tolower f) "f" then
      ret (long_distance_call_data.set_weekday weekday.Friday in_data, true)
    else if Ascii.eqb (tolower f) "s" then
      if Ascii.eqb (tolower s) "a" then
        ret (long_distance_call_data.set_weekday weekday.Saturday in_data, true)
      else if Ascii.eqb (tolower s) "u" then
        ret (long_distance_call_data.set_weekday weekday.Sunday in_data, true)
      else ret (in_data, false)
    else
      print invalid_weekday_message ;;
      ret (in_data, false).

(** [std::cin >> first_letter >> second_letter] and the [ignore]. *)
Definition read_two_letters : io (option ascii * option ascii) :=
  first_letter <- extract_char ;;
  second_letter <- extract_char ;;
  ignore_line ;;
  ret (first_letter, second_letter).

Definition get_day_of_week_body (in_data : long_distance_call_data.t)
    : io (long_distance_call_data.t * bool) :=
  print day_prompt ;;
  letters <- read_two_letters ;;
  select_weekday in_data (fst letters) (snd letters).

Definition get_day_of_week (fuel : nat) (in_data : long_distance_call_data.t)
    : io long_distance_call_data.t :=
  while_not fuel get_day_of_week_body in_data.

(** *** [get_start_time] *)

Definition time_prompt : string :=
  "Please enter the time you began your call (e.g. 16:32): ".

Definition invalid_hour_message : string := "You entered an invalid hour." ++ nl.
Definition invalid_minutes_message : string :=
  "You entered an invalid minutes." ++ nl.

(** The two range tests of the loop body and the two setters. *)
Definition check_start_time (in_data : long_distance_call_data.t)
    (hour minutes : option Z) : io (long_distance_call_data.t * bool) :=
  h <- use hour ;;
  if (h <? 0) || (h >? 24) then
    print "You entered an invalid hour." ;; endl ;;
    ret (in_data, false)
  else
    m <- use minutes ;;
    if (m <? 0) || (m >? 59) || ((m >? 0) && (h =? 24)) then
      print "You entered an invalid minutes." ;; endl ;;
      ret (in_data, false)
    else
      ret (long_distance_call_data.set_minute m
             (long_distance_call_data.set_hour h in_data), true).

(** [std::cin >> hour >> c >> minutes] and the [ignore]. *)
Definition read_hour_minutes : io (option Z * option Z) :=
  hour <- extract_int ;;
  _ <- extract_char ;;
  minutes <- extract_int ;;
  ignore_line ;;
  ret (hour, minutes).

Definition get_start_time_body (in_data : long_distance_call_data.t)
    : io (long_distance_call_data.t * bool) :=
  print time_prompt ;;
  time <- read_hour_minutes ;;
  check_start_time in_data (fst time) (snd time).

Definition get_start_time (fuel : nat) (in_data : long_distance_call_data.t)
    : io long_distance_call_data.t :=
  while_not fuel get_start_time_body in_data.

(** *** [get_length_of_call] *)

Definition length_prompt : string :=
  "Please enter the length of your call in minutes: ".

Definition invalid_number_message : string :=
  "You did not enter a valid number." ++ nl.

(** [length_of_call[0]]: the first character of the buffer, the
    terminating zero when the token is empty. *)
Definition first_char (buf : string) : ascii :=
  match buf with
  | String ch _ => ch
  | EmptyString => zero
  end.

(** The [isdigit] test of the loop body, the conversion and the setter. *)
Definition check_length_of_call (in_data : long_distance_call_data.t)
    (length_of_call : option string) : io (long_distance_call_data.t * bool) :=
  buf <- use length_of_call ;;
  if negb (isdigit (first_char buf)) then
    print invalid_number_message ;;
    ret (in_data, false)
  else
    match stoi buf with
    | inl e => throw e
    | inr n => ret (long_distance_call_data.set_length_of_call n in_data, true)
    end.

(** [std::cin >> length_of_call] and the [ignore]. *)
Definition read_length_text : io (option string) :=
  length_of_call <- extract_token 256 ;;
  ignore_line ;;
  ret length_of_call.

Definition get_length_of_call_body (in_data : long_distance_call_data.t)
    : io (long_distance_call_data.t * bool) :=
  print length_prompt ;;
  length_of_call <- read_length_text ;;
  check_length_of_call in_data length_of_call.

Definition get_length_of_call (fuel : nat) (in_data : long_distance_call_data.t)
    : io long_distance_call_data.t :=
  while_not fuel get_length_of_call_body in_data.

(** ** The session loop *)

Definition hello : string :=
  "Hello. Let's calculate the cost of your long-distance call." ++ nl.

Definition another_prompt : string :=
  "Would you like to calculate another call? (y or n): ".

Definition take_as_yes : string := "I'll take that as a yes" ++ nl ++ nl.

(** The [switch] on the answer to the last prompt: [true] sets [quit]. *)
Definition answer (quit_input : ascii) : io bool :=
  if Ascii.eqb (tolower quit_input) "n" then ret true
  else if Ascii.eqb (tolower quit_input) "y" then ret false
  else print take_as_yes ;; ret false.

(** One round of the [while (!quit)] loop of [main]; it returns the new
    value of [quit]. *)
Definition main_body (fuel : nat) : io bool :=
  let input := long_distance_call_data.default in
  print hello ;;
  input <- get_day_of_week fuel input ;;
  print "You entered: " ;;
  print (long_distance_call_data.get_text_for_enum
           (weekday.to_int (long_distance_call_data.get_weekday input))) ;;
  endl ;; endl ;;
  input <- get_start_time fuel input ;;
  print "You entered the time: " ;;
  print (long_distance_call_data.get_time_formatted input) ;;
  endl ;; endl ;;
  input <- get_length_of_call fuel input ;;
  print "You entered: " ;;
  print (to_string (long_distance_call_data.get_length_of_call input)) ;;
  print " minutes." ;;
  endl ;; endl ;;
  print "The cost of your call is $" ;;
  print (show_fixed2 (calculate_cost_of_call input)) ;;
  endl ;; endl ;; endl ;;
  print another_prompt ;;
  read <- extract_char ;;
  let quit_input := match read with Some ch => ch | Datatypes.None => zero end in
  ignore_line ;;
  answer quit_input.

Fixpoint main_loop (fuel : nat) : io unit :=
  match fuel with
  | O => fun _ => OutOfFuel
  | S fuel' =>
      quit <- main_body fuel ;;
      if quit then ret tt else main_loop fuel'
  end.

(** [main]: its value is the exit status. *)
Definition main (fuel : nat) : io Z :=
  main_loop fuel ;;
  endl ;;
  ret 0.

(** A run of the program on the text [input] of standard input. *)
Definition run (fuel : nat) (input : string) : outcome Z :=
  main fuel (mk_console input false EmptyString).

(** The number of loop rounds the console still allows. *)
Definition pending (c : console) : nat :=
  if failbit c then O else S (String.length (cin c)).


(** ** Vocabulary of the specification *)

Definition weekend (w : weekday.t) : Prop :=
  w = weekday.Saturday \/ w = weekday.Sunday.

Definition monday_to_friday (w : weekday.t) : Prop :=
  w = weekday.Monday \/ w = weekday.Tuesday \/ w = weekday.Wednesday \/
  w = weekday.Thursday \/ w = weekday.Friday.

(** The duration times a rate given in hundredths of a dollar per minute,
    as the program computes it: both factors and the product are binary32
    numbers. *)
Definition duration_times (r : long_distance_call_data.t) (cents : Z) : F32.float :=
  F32.mul (F32.of_int (long_distance_call_data.get_length_of_call r))
          (F32.literal cents 100).

(** The console after [s] has been written to it. *)
Definition wrote (c : console) (s : string) : console :=
  mk_console (cin c) (failbit c) (cout c ++ s).

(** Standard input made of the given lines. *)
Definition lines (l : list string) : string :=
  fold_right (fun x acc => x ++ nl ++ acc) EmptyString l.

Definition stdin (l : list string) : console :=
  mk_console (lines l) false EmptyString.

(** The start times the specification accepts. *)
Definition accepted_time (h m : Z) : Prop :=
  0 <= h <= 24 /\ 0 <= m <= 59 /\ ~ (h = 24 /\ m > 0).

(** The letter [ch] read without regard to case. *)
Definition is_letter (ch lower upper : ascii) : bool :=
  Ascii.eqb ch lower || Ascii.eqb ch upper.

(** The documented two-letter codes of the specification: [m*], [w*],
    [f*], [tu], [th], [sa], [su], in either case. *)
Definition documented_weekday (first second : ascii) : option weekday.t :=
  if is_letter first "m" "M" then Some weekday.Monday
  else if is_letter first "w" "W" then Some weekday.Wednesday
  else if is_letter first "f" "F" then Some weekday.Friday
  else if is_letter first "t" "T" && is_letter second "u" "U"
  then Some weekday.Tuesday
  else if is_letter first "t" "T" && is_letter second "h" "H"
  then Some weekday.Thursday
  else if is_letter first "s" "S" && is_letter second "a" "A"
  then Some weekday.Saturday
  else if is_letter first "s" "S" && is_letter second "u" "U"
  then Some weekday.Sunday
  else Datatypes.None.

(** The seven days, as opposed to the enumerator [None]. *)
Definition a_day (w : weekday.t) : Prop := monday_to_friday w \/ weekend w.

(** The leading numeric prefix of a string, and the integer its decimal
    digits denote. *)
Fixpoint numeric_prefix (s : string) : string :=
  match s with
  | String ch rest =>
      if isdigit ch then String ch (numeric_prefix rest) else EmptyString
  | EmptyString => EmptyString
  end.

Definition decimal_value (digits : string) : Z :=
  fold_left (fun acc ch => 10 * acc + digit_value ch)
            (list_ascii_of_string digits) 0.

(** [m'] behaves as [m] wherever [m] does not run out of fuel. *)
Definition refines {A} (m m' : io A) : Prop :=
  forall c, m c <> OutOfFuel -> m' c = m c.

(** With less than [fuel] rounds pending, [m] does not run out of fuel
    and does not add to what is pending. *)
Definition safe {A} (fuel : nat) (m : io A) : Prop :=
  forall c, (pending c < fuel)%nat ->
    m c <> OutOfFuel /\
    forall a c', m c = Ok a c' -> (pending c' <= pending c)%nat.

(** An amount in cents written as dollars with two decimals. *)
Definition show_cents (cents : Z) : string :=
  to_string (cents / 100) ++ "." ++ two_digits (cents mod 100).

(** [p] holds of 0, 1, ..., [k]. *)
Fixpoint all_upto (k : nat) (p : Z -> bool) : bool :=
  match k with
  | O => p 0
  | S k' => p (Z.of_nat k) && all_upto k' p
  end.

(** What one round of the session writes before the continue prompt,
    given the three echoed values and the printed cost. *)
Definition transcript (day time minutes cost : string) : string :=
  hello ++ day_prompt ++ "You entered: " ++ day ++ nl ++ nl
  ++ time_prompt ++ "You entered the time: " ++ time ++ nl ++ nl
  ++ length_prompt ++ "You entered: " ++ minutes ++ " minutes." ++ nl ++ nl
  ++ "The cost of your call is $" ++ cost ++ nl ++ nl ++ nl.

(** No newline among the characters of [s]. *)
Fixpoint no_newline (s : string) : bool :=
  match s with
  | String ch rest => negb (Ascii.eqb ch newline) && no_newline rest
  | EmptyString => true
  end.

(** The text that [get_time_formatted] gives for an hour and minutes. *)
Definition time_text (h m : Z) : string :=
  long_distance_call_data.get_time_formatted
    (long_distance_call_data.mk weekday.Monday h m 0).

(** The line [time_text h m], typed at the time prompt, is extracted as
    the pair [(h, m)] and used up. *)
Definition time_reads_back (h m : Z) : bool :=
  match read_hour_minutes (wrote (stdin [time_text h m]) time_prompt) with
  | Ok (Some h', Some m') c =>
      (h' =? h) && (m' =? m) && String.eqb (cin c) EmptyString
      && negb (failbit c) && String.eqb (cout c) time_prompt
  | _ => false
  end.

(** * Properties *)

Lemma weekday_eqb_eq a b : weekday.eqb a b = true <-> a = b.
Proof.
  unfold weekday.eqb; split.
  - destruct a, b; simpl; intros H; try reflexivity; discriminate H.
  - intros ->. apply Z.eqb_refl.
Qed.

(** The three constants of [calculate_cost_of_call] are the binary32
    readings of the literals [0.15f], [0.25f] and [0.4f]. *)
Lemma rate_literals :
  weekend_rate = F32.literal 15 100 /\
  weekday_edge_rate = F32.literal 25 100 /\
  weekday_normal_rate = F32.literal 40 100.
Proof. repeat split; vm_compute; reflexivity. Qed.

Lemma normal_rate_is_four_tenths : weekday_normal_rate = F32.literal 4 10.
Proof. vm_compute; reflexivity. Qed.

(** ** The rate calculator *)

Lemma cost_weekend r :
  weekend (long_distance_call_data.get_weekday r) ->
  calculate_cost_of_call r = duration_times r 15.
Proof.
  intros [H | H]; unfold calculate_cost_of_call, duration_times;
    rewrite H; simpl; destruct rate_literals as [<- _]; reflexivity.
Qed.

Lemma not_weekend w :
  monday_to_friday w ->
  weekday.eqb w weekday.Saturday || weekday.eqb w weekday.Sunday = false.
Proof. intros [H | [H | [H | [H | H]]]]; rewrite H; reflexivity. Qed.

Lemma cost_edge r :
  monday_to_friday (long_distance_call_data.get_weekday r) ->
  long_distance_call_data.get_hour r < 8 \/ 18 < long_distance_call_data.get_hour r ->
  calculate_cost_of_call r = duration_times r 25.
Proof.
  intros Hw Hh. unfold calculate_cost_of_call, duration_times.
  rewrite (not_weekend _ Hw).
  destruct rate_literals as (_ & <- & _).
  replace ((long_distance_call_data.get_hour r <? 8)
           || (long_distance_call_data.get_hour r >? 18)) with true; [reflexivity|].
  symmetry; apply orb_true_iff.
  destruct Hh; [left; apply Z.ltb_lt | right; apply Z.gtb_lt]; assumption.
Qed.

Lemma cost_normal r :
  monday_to_friday (long_distance_call_data.get_weekday r) ->
  8 <= long_distance_call_data.get_hour r <= 18 ->
  calculate_cost_of_call r = duration_times r 40.
Proof.
  intros Hw Hh. unfold calculate_cost_of_call, duration_times.
  rewrite (not_weekend _ Hw).
  destruct rate_literals as (_ & _ & <-).
  replace ((long_distance_call_data.get_hour r <? 8)
           || (long_distance_call_data.get_hour r >? 18)) with false; [reflexivity|].
  symmetry; apply orb_false_iff; split.
  - apply Z.ltb_ge; lia.
  - rewrite Z.gtb_ltb. apply Z.ltb_ge; lia.
Qed.

(** C1. On Saturday and Sunday the cost is the duration times 0.15; from
    Monday to Friday it is the duration times 0.25 when the start hour is
    in 0..7 or in 19..24, and the duration times 0.40 when the start hour
    is in 8..18.  The products are the binary32 products the program
    computes. *)
Theorem calculate_cost_of_call_rate_table (r : long_distance_call_data.t) :
  (weekend (long_distance_call_data.get_weekday r) ->
   calculate_cost_of_call r = duration_times r 15) /\
  (monday_to_friday (long_distance_call_data.get_weekday r) ->
   0 <= long_distance_call_data.get_hour r <= 7 \/
   19 <= long_distance_call_data.get_hour r <= 24 ->
   calculate_cost_of_call r = duration_times r 25) /\
  (monday_to_friday (long_distance_call_data.get_weekday r) ->
   8 <= long_distance_call_data.get_hour r <= 18 ->
   calculate_cost_of_call r = duration_times r 40).
Proof.
  split; [apply cost_weekend|].
  split; [|apply cost_normal].
  intros Hw Hh. apply cost_edge; [assumption | lia].
Qed.

Lemma calculate_cost_of_call_rate_table_witness :
  calculate_cost_of_call (long_distance_call_data.mk weekday.Sunday 12 0 1)
    = duration_times (long_distance_call_data.mk weekday.Sunday 12 0 1) 15 /\
  calculate_cost_of_call (long_distance_call_data.mk weekday.Thursday 6 0 15)
    = duration_times (long_distance_call_data.mk weekday.Thursday 6 0 15) 25 /\
  calculate_cost_of_call (long_distance_call_data.mk weekday.Monday 9 30 10)
    = duration_times (long_distance_call_data.mk weekday.Monday 9 30 10) 40.
Proof.
  split; [|split].
  - apply (calculate_cost_of_call_rate_table
             (long_distance_call_data.mk weekday.Sunday 12 0 1)).
    right; reflexivity.
  - apply (calculate_cost_of_call_rate_table
             (long_distance_call_data.mk weekday.Thursday 6 0 15)).
    + right; right; right; left; reflexivity.
    + left; simpl; lia.
  - apply (calculate_cost_of_call_rate_table
             (long_distance_call_data.mk weekday.Monday 9 30 10)).
    + left; reflexivity.
    + simpl; lia.
Defined.

(** C2. Two records that agree on weekday, start hour and duration cost
    the same whatever their start minutes; a call from Monday to Friday at
    hour 18 costs the duration times 0.40 at any minute, and Friday 18:45
    for 20 minutes costs exactly 8, written [8.00]. *)
Theorem cost_ignores_start_minute (r1 r2 : long_distance_call_data.t) :
  long_distance_call_data.get_weekday r1 = long_distance_call_data.get_weekday r2 ->
  long_distance_call_data.get_hour r1 = long_distance_call_data.get_hour r2 ->
  long_distance_call_data.get_length_of_call r1
    = long_distance_call_data.get_length_of_call r2 ->
  calculate_cost_of_call r1 = calculate_cost_of_call r2 /\
  (monday_to_friday (long_distance_call_data.get_weekday r1) ->
   long_distance_call_data.get_hour r1 = 18 ->
   calculate_cost_of_call r1 = duration_times r1 40 /\
   calculate_cost_of_call r2 = duration_times r2 40) /\
  calculate_cost_of_call (long_distance_call_data.mk weekday.Friday 18 45 20)
    = F32.of_int 8 /\
  show_fixed2 (calculate_cost_of_call
                 (long_distance_call_data.mk weekday.Friday 18 45 20)) = "8.00".
Proof.
  intros Hw Hh Hl. split; [|split; [|split]].
  - unfold calculate_cost_of_call. rewrite Hw, Hh, Hl. reflexivity.
  - intros Hd H18. split; apply cost_normal;
      rewrite <- ?Hw, <- ?Hh; try assumption; lia.
  - vm_compute; reflexivity.
  - vm_compute; reflexivity.
Qed.

Lemma cost_ignores_start_minute_witness :
  calculate_cost_of_call (long_distance_call_data.mk weekday.Friday 18 0 20)
    = calculate_cost_of_call (long_distance_call_data.mk weekday.Friday 18 45 20).
Proof.
  apply (cost_ignores_start_minute
           (long_distance_call_data.mk weekday.Friday 18 0 20)
           (long_distance_call_data.mk weekday.Friday 18 45 20));
    reflexivity.
Defined.

(** ** The console monad *)

Lemma append_assoc (a b c : string) : (a ++ b) ++ c = a ++ (b ++ c).
Proof. induction a as [|ch a IH]; simpl; [reflexivity | now rewrite IH]. Qed.

Lemma print_wrote s c : print s c = Ok tt (wrote c s).
Proof. reflexivity. Qed.

Lemma wrote_wrote c a b : wrote (wrote c a) b = wrote c (a ++ b).
Proof. unfold wrote; simpl. now rewrite append_assoc. Qed.

(** A rejected round of a loop hands the record it returns to the next
    round; an accepted one ends the loop. *)
Lemma while_not_round fuel body d c d' valid c' :
  body d c = Ok (d', valid) c' ->
  while_not (S fuel) body d c =
    if valid then Ok d' c' else while_not fuel body d' c'.
Proof.
  intros H. simpl. unfold bind. rewrite H. simpl.
  destruct valid; reflexivity.
Qed.

(** ** Read start time *)

Lemma check_start_time_hour d h m c :
  ~ 0 <= h <= 24 ->
  check_start_time d (Some h) m c = Ok (d, false) (wrote c invalid_hour_message).
Proof.
  intros Hh. unfold check_start_time, bind, use.
  replace ((h <? 0) || (h >? 24)) with true.
  - unfold endl. rewrite !print_wrote, wrote_wrote. reflexivity.
  - symmetry; apply orb_true_iff.
    destruct (Z.ltb_spec h 0); [now left | right].
    rewrite Z.gtb_ltb. apply Z.ltb_lt. lia.
Qed.

Lemma hour_in_range h :
  0 <= h <= 24 -> (h <? 0) || (h >? 24) = false.
Proof.
  intros Hh. apply orb_false_iff; split.
  - apply Z.ltb_ge; lia.
  - rewrite Z.gtb_ltb. apply Z.ltb_ge; lia.
Qed.

Lemma minutes_test h m :
  (m <? 0) || (m >? 59) || ((m >? 0) && (h =? 24)) = false
  <-> 0 <= m <= 59 /\ ~ (h = 24 /\ m > 0).
Proof.
  rewrite !Z.gtb_ltb.
  destruct (Z.ltb_spec m 0), (Z.ltb_spec 59 m), (Z.ltb_spec 0 m),
    (Z.eqb_spec h 24); simpl; split; intros Hx; try discriminate Hx;
    try reflexivity; try lia.
Qed.

Lemma check_start_time_minutes d h m c :
  0 <= h <= 24 -> ~ (0 <= m <= 59 /\ ~ (h = 24 /\ m > 0)) ->
  check_start_time d (Some h) (Some m) c
    = Ok (d, false) (wrote c invalid_minutes_message).
Proof.
  intros Hh Hm. unfold check_start_time, bind, use.
  rewrite (hour_in_range _ Hh).
  destruct ((m <? 0) || (m >? 59) || ((m >? 0) && (h =? 24))) eqn:E.
  - unfold endl. rewrite !print_wrote, wrote_wrote. reflexivity.
  - apply minutes_test in E. contradiction.
Qed.

Lemma check_start_time_accepts d h m c :
  accepted_time h m ->
  check_start_time d (Some h) (Some m) c
    = Ok (long_distance_call_data.set_minute m
            (long_distance_call_data.set_hour h d), true) c.
Proof.
  intros (Hh & Hm & H24). unfold check_start_time, bind, use.
  rewrite (hour_in_range _ Hh).
  replace ((m <? 0) || (m >? 59) || ((m >? 0) && (h =? 24))) with false;
    [reflexivity|].
  symmetry; apply minutes_test. split; assumption.
Qed.

Lemma accepted_time_dec h m :
  accepted_time h m \/ ~ 0 <= h <= 24 \/
  (0 <= h <= 24 /\ ~ (0 <= m <= 59 /\ ~ (h = 24 /\ m > 0))).
Proof. unfold accepted_time. lia. Qed.

Lemma get_start_time_body_unfold d c :
  get_start_time_body d c =
    match read_hour_minutes (wrote c time_prompt) with
    | Ok time c' => check_start_time d (fst time) (snd time) c'
    | Indeterminate c' => Indeterminate c'
    | Terminate e c' => Terminate e c'
    | OutOfFuel => OutOfFuel
    end.
Proof. reflexivity. Qed.

(** C3. When the prompt has been answered with a parsed pair (hour,
    minutes), the round accepts it exactly when the hour is in 0..24, the
    minutes are in 0..59 and it is not hour 24 with minutes above 0, and
    then stores both; an hour out of range writes "You entered an invalid
    hour." and an hour in range with unacceptable minutes writes "You
    entered an invalid minutes."; in both cases the record is kept and the
    loop goes round again. *)
Theorem get_start_time_validation
    (d : long_distance_call_data.t) (c c' : console) (h m : Z) :
  read_hour_minutes (wrote c time_prompt) = Ok (Some h, Some m) c' ->
  (accepted_time h m <->
   get_start_time_body d c
     = Ok (long_distance_call_data.set_minute m
             (long_distance_call_data.set_hour h d), true) c') /\
  (~ 0 <= h <= 24 ->
   get_start_time_body d c = Ok (d, false) (wrote c' invalid_hour_message) /\
   forall fuel, get_start_time (S fuel) d c
                = get_start_time fuel d (wrote c' invalid_hour_message)) /\
  (0 <= h <= 24 -> ~ (0 <= m <= 59 /\ ~ (h = 24 /\ m > 0)) ->
   get_start_time_body d c = Ok (d, false) (wrote c' invalid_minutes_message) /\
   forall fuel, get_start_time (S fuel) d c
                = get_start_time fuel d (wrote c' invalid_minutes_message)).
Proof.
  intros Hread. rewrite get_start_time_body_unfold, Hread. simpl fst; simpl snd.
  split; [|split].
  - split; [apply check_start_time_accepts|].
    intros H.
    destruct (accepted_time_dec h m) as [Ha | [Hh | [Hh Hm]]]; [exact Ha | |].
    + rewrite (check_start_time_hour _ _ _ _ Hh) in H. discriminate H.
    + rewrite (check_start_time_minutes _ _ _ _ Hh Hm) in H. discriminate H.
  - intros Hh. split; [now apply check_start_time_hour|].
    intros fuel. unfold get_start_time.
    rewrite (while_not_round fuel _ d c d false (wrote c' invalid_hour_message));
      [reflexivity|].
    rewrite get_start_time_body_unfold, Hread. now apply check_start_time_hour.
  - intros Hh Hm. split; [now apply check_start_time_minutes|].
    intros fuel. unfold get_start_time.
    rewrite (while_not_round fuel _ d c d false
               (wrote c' invalid_minutes_message)); [reflexivity|].
    rewrite get_start_time_body_unfold, Hread.
    now apply check_start_time_minutes.
Qed.

Lemma get_start_time_validation_witness :
  get_start_time_body long_distance_call_data.default (stdin ["24:01"; "24:00"])
  = Ok (long_distance_call_data.default, false)
       (mk_console (lines ["24:00"]) false
          (time_prompt ++ invalid_minutes_message)).
Proof.
  refine (proj1 (proj2 (proj2
    (get_start_time_validation long_distance_call_data.default
       (stdin ["24:01"; "24:00"])
       (mk_console (lines ["24:00"]) false time_prompt) 24 1 _)) _ _)).
  - reflexivity.
  - lia.
  - lia.
Defined.

(** ** Read weekday *)

Lemma tolower_is_letter ch :
  Ascii.eqb (tolower ch) "m" = is_letter ch "m" "M" /\
  Ascii.eqb (tolower ch) "t" = is_letter ch "t" "T" /\
  Ascii.eqb (tolower ch) "w" = is_letter ch "w" "W" /\
  Ascii.eqb (tolower ch) "f" = is_letter ch "f" "F" /\
  Ascii.eqb (tolower ch) "s" = is_letter ch "s" "S" /\
  Ascii.eqb (tolower ch) "u" = is_letter ch "u" "U" /\
  Ascii.eqb (tolower ch) "h" = is_letter ch "h" "H" /\
  Ascii.eqb (tolower ch) "a" = is_letter ch "a" "A".
Proof.
  destruct ch as [[] [] [] [] [] [] [] []]; vm_compute; repeat split.
Qed.

Lemma append_nil_r (s : string) : s ++ EmptyString = s.
Proof. induction s as [|ch s IH]; simpl; [reflexivity | now rewrite IH]. Qed.

Lemma wrote_nothing c : wrote c EmptyString = c.
Proof. destruct c; unfold wrote; simpl. now rewrite append_nil_r. Qed.

Ltac by_letter :=
  repeat match goal with
         | |- context [Ascii.eqb ?x ?l] =>
             is_var x; destruct (Ascii.eqb_spec x l) as [-> | ?]; simpl
         end.

(** The loop body decodes exactly the documented codes. *)
Lemma select_weekday_documented d f s c :
  isalpha f = true -> isalpha s = true ->
  match documented_weekday f s with
  | Some w =>
      select_weekday d (Some f) (Some s) c
        = Ok (long_distance_call_data.set_weekday w d, true) c
  | Datatypes.None =>
      exists msg, select_weekday d (Some f) (Some s) c = Ok (d, false) (wrote c msg)
  end.
Proof.
  intros Hf Hs. unfold select_weekday, documented_weekday, bind, use.
  rewrite Hf, Hs. simpl negb. cbv iota.
  destruct (tolower_is_letter f) as (<- & <- & <- & <- & <- & _).
  destruct (tolower_is_letter s) as (_ & _ & _ & _ & _ & <- & <- & <-).
  generalize (tolower f) (tolower s). intros lf ls.
  by_letter; try reflexivity;
    first [ exists EmptyString; now rewrite wrote_nothing
          | exists invalid_weekday_message; reflexivity ].
Qed.

Lemma get_day_of_week_body_unfold d c :
  get_day_of_week_body d c =
    match read_two_letters (wrote c day_prompt) with
    | Ok letters c' => select_weekday d (fst letters) (snd letters) c'
    | Indeterminate c' => Indeterminate c'
    | Terminate e c' => Terminate e c'
    | OutOfFuel => OutOfFuel
    end.
Proof. reflexivity. Qed.

(** C5. For two alphabetic characters read at the prompt, the round
    succeeds exactly on the documented codes, in either case ([m*] Monday,
    [w*] Wednesday, [f*] Friday, [tu] Tuesday, [th] Thursday, [sa]
    Saturday, [su] Sunday), storing that day and ending the loop; on every
    other pair it keeps the record and the loop goes round again. *)
Theorem get_day_of_week_decoding
    (d : long_distance_call_data.t) (c c' : console) (f s : ascii) :
  read_two_letters (wrote c day_prompt) = Ok (Some f, Some s) c' ->
  isalpha f = true -> isalpha s = true ->
  match documented_weekday f s with
  | Some w =>
      get_day_of_week_body d c
        = Ok (long_distance_call_data.set_weekday w d, true) c' /\
      forall fuel, get_day_of_week (S fuel) d c
                   = Ok (long_distance_call_data.set_weekday w d) c'
  | Datatypes.None =>
      exists msg,
        get_day_of_week_body d c = Ok (d, false) (wrote c' msg) /\
        forall fuel, get_day_of_week (S fuel) d c
                     = get_day_of_week fuel d (wrote c' msg)
  end.
Proof.
  intros Hread Hf Hs.
  pose proof (select_weekday_documented d f s c' Hf Hs) as H.
  assert (Hbody : get_day_of_week_body d c = select_weekday d (Some f) (Some s) c')
    by (rewrite get_day_of_week_body_unfold, Hread; reflexivity).
  destruct (documented_weekday f s) as [w|].
  - rewrite <- Hbody in H. split; [exact H|].
    intros fuel. unfold get_day_of_week.
    now rewrite (while_not_round fuel _ d c _ true c' H).
  - destruct H as [msg H]. rewrite <- Hbody in H. exists msg. split; [exact H|].
    intros fuel. unfold get_day_of_week.
    now rewrite (while_not_round fuel _ d c _ false _ H).
Qed.

Lemma get_day_of_week_decoding_witness :
  get_day_of_week_body long_distance_call_data.default (stdin ["TH"])
    = Ok (long_distance_call_data.set_weekday weekday.Thursday
            long_distance_call_data.default, true)
         (mk_console EmptyString false day_prompt).
Proof.
  refine (proj1 (get_day_of_week_decoding long_distance_call_data.default
            (stdin ["TH"]) (mk_console EmptyString false day_prompt)
            "T" "H" _ _ _)); reflexivity.
Defined.

Example documented_weekday_examples :
  documented_weekday "M" "o" = Some weekday.Monday /\
  documented_weekday "m" "z" = Some weekday.Monday /\
  documented_weekday "t" "U" = Some weekday.Tuesday /\
  documented_weekday "W" "e" = Some weekday.Wednesday /\
  documented_weekday "T" "h" = Some weekday.Thursday /\
  documented_weekday "f" "r" = Some weekday.Friday /\
  documented_weekday "S" "A" = Some weekday.Saturday /\
  documented_weekday "s" "u" = Some weekday.Sunday /\
  documented_weekday "t" "x" = Datatypes.None /\
  documented_weekday "s" "o" = Datatypes.None /\
  documented_weekday "x" "x" = Datatypes.None.
Proof. repeat split. Qed.

Ltac split_cases H :=
  repeat (first
            [ match type of H with
              | context [match ?x with _ => _ end] => is_var x; destruct x
              end
            | match type of H with
              | context [if ?b then _ else _] => destruct b
              end
            | match type of H with
              | context [match stoi ?x with _ => _ end] => destruct (stoi x)
              end ];
          simpl in H);
  try discriminate H.

Lemma select_weekday_rejected d f s c d' c' :
  select_weekday d f s c = Ok (d', false) c' -> d' = d.
Proof.
  intros H. unfold select_weekday, bind, use, print, ret in H.
  split_cases H; inversion H; reflexivity.
Qed.

Lemma select_weekday_accepted d f s c d' c' :
  select_weekday d f s c = Ok (d', true) c' ->
  a_day (long_distance_call_data.get_weekday d').
Proof.
  intros H. unfold select_weekday, bind, use, print, ret in H.
  split_cases H; inversion H; subst; unfold a_day, monday_to_friday, weekend;
    simpl; tauto.
Qed.

Lemma extract_char_cout v c c' : extract_char c = Ok v c' -> cout c' = cout c.
Proof.
  unfold extract_char. intros H.
  destruct (failbit c); [now inversion H|].
  destruct (skipws (cin c)); now inversion H.
Qed.

Lemma ignore_line_cout c c' : ignore_line c = Ok tt c' -> cout c' = cout c.
Proof. unfold ignore_line. destruct (failbit c); now inversion 1. Qed.

Lemma read_two_letters_cout r c c' :
  read_two_letters c = Ok r c' -> cout c' = cout c.
Proof.
  unfold read_two_letters, bind, ret. intros H.
  destruct (extract_char c) as [v1 c1| | |] eqn:E1; try discriminate H.
  destruct (extract_char c1) as [v2 c2| | |] eqn:E2; try discriminate H.
  destruct (ignore_line c2) as [[] c3| | |] eqn:E3; try discriminate H.
  inversion H; subst.
  rewrite (ignore_line_cout _ _ E3), (extract_char_cout _ _ _ E2).
  apply (extract_char_cout _ _ _ E1).
Qed.

Lemma get_day_of_week_body_rejected d c d' c' :
  get_day_of_week_body d c = Ok (d', false) c' -> d' = d.
Proof.
  rewrite get_day_of_week_body_unfold.
  destruct (read_two_letters _) as [r c1| | |]; try discriminate.
  apply select_weekday_rejected.
Qed.

Lemma get_day_of_week_body_accepted d c d' c' :
  get_day_of_week_body d c = Ok (d', true) c' ->
  a_day (long_distance_call_data.get_weekday d').
Proof.
  rewrite get_day_of_week_body_unfold.
  destruct (read_two_letters _) as [r c1| | |]; try discriminate.
  apply select_weekday_accepted.
Qed.

(** What a loop returns is what its last, accepting round returned. *)
Lemma while_not_returns (P : long_distance_call_data.t -> Prop) body :
  (forall d c d' c', body d c = Ok (d', true) c' -> P d') ->
  forall fuel d c d' c', while_not fuel body d c = Ok d' c' -> P d'.
Proof.
  intros Hbody. induction fuel as [|fuel IH]; intros d c d' c' H;
    [discriminate H|].
  simpl in H. unfold bind in H.
  destruct (body d c) as [[d1 [|]] c1| | |] eqn:E; try discriminate H;
    simpl in H.
  - inversion H; subst. eapply Hbody; eassumption.
  - eapply IH; eassumption.
Qed.

Lemma is_letter_cases ch lower upper :
  is_letter ch lower upper = true -> ch = lower \/ ch = upper.
Proof.
  unfold is_letter. intros H. apply orb_true_iff in H.
  destruct H as [H | H]; apply Ascii.eqb_eq in H; auto.
Qed.

Lemma select_weekday_t_other d f s c :
  is_letter f "t" "T" = true ->
  is_letter s "u" "U" = false -> is_letter s "h" "H" = false ->
  select_weekday d (Some f) (Some s) c = Ok (d, false) c.
Proof.
  intros Hf Hu Hh.
  destruct (tolower_is_letter s) as (_ & _ & _ & _ & _ & Eu & Eh & _).
  rewrite <- Eu in Hu. rewrite <- Eh in Hh.
  unfold select_weekday, bind, use, ret.
  destruct (is_letter_cases _ _ _ Hf) as [-> | ->]; simpl;
    destruct (isalpha s); simpl; try reflexivity;
    rewrite Hu, Hh; reflexivity.
Qed.

(** C6, as stated, fails: after [tx] the round has written the prompt and
    nothing else. *)
Lemma t_with_other_letter_prints_no_message :
  get_day_of_week_body long_distance_call_data.default (stdin ["tx"])
    = Ok (long_distance_call_data.default, false)
         (mk_console EmptyString false day_prompt) /\
  get_day_of_week_body long_distance_call_data.default (stdin ["tx"])
    <> Ok (long_distance_call_data.default, false)
          (mk_console EmptyString false (day_prompt ++ invalid_weekday_message)).
Proof. split; [reflexivity | discriminate]. Qed.

(** C6, amended. When the first letter read is [t] or [T] and the second
    character is none of [u], [U], [h], [H], the round makes no match,
    keeps the record, writes nothing after the prompt, and the loop goes
    round again. *)
Theorem get_day_of_week_t_other_is_silent
    (d : long_distance_call_data.t) (c c' : console) (f s : ascii) :
  read_two_letters (wrote c day_prompt) = Ok (Some f, Some s) c' ->
  is_letter f "t" "T" = true ->
  is_letter s "u" "U" = false -> is_letter s "h" "H" = false ->
  get_day_of_week_body d c = Ok (d, false) c' /\
  cout c' = cout c ++ day_prompt /\
  forall fuel, get_day_of_week (S fuel) d c = get_day_of_week fuel d c'.
Proof.
  intros Hread Hf Hu Hh.
  assert (H : get_day_of_week_body d c = Ok (d, false) c').
  { rewrite get_day_of_week_body_unfold, Hread.
    now apply select_weekday_t_other. }
  split; [exact H|]. split.
  - apply (read_two_letters_cout _ _ _ Hread).
  - intros fuel. unfold get_day_of_week.
    now rewrite (while_not_round fuel _ d c _ false _ H).
Qed.

Lemma get_day_of_week_t_other_is_silent_witness :
  get_day_of_week_body long_distance_call_data.default (stdin ["Tx"; "Tu"])
    = Ok (long_distance_call_data.default, false)
         (mk_console (lines ["Tu"]) false day_prompt).
Proof.
  refine (proj1 (get_day_of_week_t_other_is_silent
            long_distance_call_data.default (stdin ["Tx"; "Tu"])
            (mk_console (lines ["Tu"]) false day_prompt) "T" "x" _ _ _ _));
    reflexivity.
Defined.

(** The message is written when the first letter is none of the five. *)
Lemma select_weekday_default d f s c :
  isalpha f = true -> isalpha s = true ->
  is_letter f "m" "M" = false -> is_letter f "t" "T" = false ->
  is_letter f "w" "W" = false -> is_letter f "f" "F" = false ->
  is_letter f "s" "S" = false ->
  select_weekday d (Some f) (Some s) c
    = Ok (d, false) (wrote c invalid_weekday_message).
Proof.
  intros Hf Hs Hm Ht Hw Hff Hss.
  destruct (tolower_is_letter f) as (Em & Et & Ew & Ef & Es & _).
  unfold select_weekday, bind, use. rewrite Hf, Hs. simpl.
  rewrite Em, Hm, Et, Ht, Ew, Hw, Ef, Hff, Es, Hss. reflexivity.
Qed.

(** ** The fresh record *)

(** C7, as stated, fails: the weekday of a fresh record is not the
    enumerator [None]. *)
Lemma fresh_record_is_not_unset :
  long_distance_call_data.get_weekday long_distance_call_data.default
    <> weekday.None.
Proof. discriminate. Qed.

(** C7, amended. A fresh record has weekday Monday; the enumerator [None]
    is distinct from all seven days; a rejected round of Read weekday
    leaves the weekday as it was, and when Read weekday completes the
    weekday is one of the seven days. *)
Theorem fresh_record_weekday :
  long_distance_call_data.get_weekday long_distance_call_data.default
    = weekday.Monday /\
  (forall w, a_day w -> w <> weekday.None) /\
  (forall d c d' c',
     get_day_of_week_body d c = Ok (d', false) c' ->
     long_distance_call_data.get_weekday d'
       = long_distance_call_data.get_weekday d) /\
  (forall fuel d c d' c',
     get_day_of_week fuel d c = Ok d' c' ->
     a_day (long_distance_call_data.get_weekday d')).
Proof.
  split; [reflexivity|]. split; [|split].
  - intros w [[H | [H | [H | [H | H]]]] | [H | H]]; rewrite H; discriminate.
  - intros d c d' c' H. now rewrite (get_day_of_week_body_rejected _ _ _ _ H).
  - intros fuel. unfold get_day_of_week.
    apply while_not_returns. apply get_day_of_week_body_accepted.
Qed.

Lemma fresh_record_weekday_witness :
  long_distance_call_data.get_weekday long_distance_call_data.default
    = weekday.Monday /\
  a_day (long_distance_call_data.get_weekday
           (long_distance_call_data.set_weekday weekday.Sunday
              long_distance_call_data.default)).
Proof.
  split.
  - exact (proj1 fresh_record_weekday).
  - refine (proj2 (proj2 (proj2 fresh_record_weekday)) 2%nat
              long_distance_call_data.default (stdin ["xx"; "su"]) _
              (mk_console EmptyString false
                 (day_prompt ++ invalid_weekday_message ++ day_prompt)) _).
    reflexivity.
Defined.

(** ** Rejected input leaves the record alone *)

Lemma check_start_time_rejected d h m c d' c' :
  check_start_time d h m c = Ok (d', false) c' -> d' = d.
Proof.
  intros H. unfold check_start_time, bind, use, endl, print, ret in H.
  split_cases H; inversion H; reflexivity.
Qed.

Lemma check_length_of_call_rejected d buf c d' c' :
  check_length_of_call d buf c = Ok (d', false) c' -> d' = d.
Proof.
  intros H. unfold check_length_of_call, bind, use, print, ret, throw in H.
  split_cases H; inversion H; reflexivity.
Qed.

Lemma get_start_time_body_rejected d c d' c' :
  get_start_time_body d c = Ok (d', false) c' -> d' = d.
Proof.
  rewrite get_start_time_body_unfold.
  destruct (read_hour_minutes _) as [r c1| | |]; try discriminate.
  apply check_start_time_rejected.
Qed.

Lemma get_length_of_call_body_unfold d c :
  get_length_of_call_body d c =
    match read_length_text (wrote c length_prompt) with
    | Ok buf c' => check_length_of_call d buf c'
    | Indeterminate c' => Indeterminate c'
    | Terminate e c' => Terminate e c'
    | OutOfFuel => OutOfFuel
    end.
Proof. reflexivity. Qed.

Lemma get_length_of_call_body_rejected d c d' c' :
  get_length_of_call_body d c = Ok (d', false) c' -> d' = d.
Proof.
  rewrite get_length_of_call_body_unfold.
  destruct (read_length_text _) as [r c1| | |]; try discriminate.
  apply check_length_of_call_rejected.
Qed.

(** C8. A round of any of the three input loops that rejects its input
    returns the record exactly as it received it, and the next round
    starts from that record; in particular a valid hour with invalid
    minutes stores neither. *)
Theorem rejected_input_stores_nothing
    (d d' : long_distance_call_data.t) (c c' : console) :
  (get_day_of_week_body d c = Ok (d', false) c' ->
   d' = d /\
   forall fuel, get_day_of_week (S fuel) d c = get_day_of_week fuel d c') /\
  (get_start_time_body d c = Ok (d', false) c' ->
   d' = d /\
   forall fuel, get_start_time (S fuel) d c = get_start_time fuel d c') /\
  (get_length_of_call_body d c = Ok (d', false) c' ->
   d' = d /\
   forall fuel, get_length_of_call (S fuel) d c = get_length_of_call fuel d c') /\
  (forall h m, 0 <= h <= 24 -> ~ (0 <= m <= 59 /\ ~ (h = 24 /\ m > 0)) ->
   check_start_time d (Some h) (Some m) c
     = Ok (d, false) (wrote c invalid_minutes_message)).
Proof.
  split; [|split; [|split]].
  - intros H. pose proof (get_day_of_week_body_rejected _ _ _ _ H) as ->.
    split; [reflexivity|]. intros fuel. unfold get_day_of_week.
    now rewrite (while_not_round fuel _ d c _ false _ H).
  - intros H. pose proof (get_start_time_body_rejected _ _ _ _ H) as ->.
    split; [reflexivity|]. intros fuel. unfold get_start_time.
    now rewrite (while_not_round fuel _ d c _ false _ H).
  - intros H. pose proof (get_length_of_call_body_rejected _ _ _ _ H) as ->.
    split; [reflexivity|]. intros fuel. unfold get_length_of_call.
    now rewrite (while_not_round fuel _ d c _ false _ H).
  - intros h m. apply check_start_time_minutes.
Qed.

Lemma rejected_input_stores_nothing_witness :
  long_distance_call_data.mk weekday.Friday 7 15 3
    = long_distance_call_data.mk weekday.Friday 7 15 3 /\
  forall fuel,
    get_start_time (S fuel) (long_distance_call_data.mk weekday.Friday 7 15 3)
      (stdin ["10:75"; "10:15"])
    = get_start_time fuel (long_distance_call_data.mk weekday.Friday 7 15 3)
        (mk_console (lines ["10:15"]) false
           (time_prompt ++ invalid_minutes_message)).
Proof.
  refine (proj1 (proj2 (rejected_input_stores_nothing
            (long_distance_call_data.mk weekday.Friday 7 15 3)
            (long_distance_call_data.mk weekday.Friday 7 15 3)
            (stdin ["10:75"; "10:15"])
            (mk_console (lines ["10:15"]) false
               (time_prompt ++ invalid_minutes_message)))) _).
  reflexivity.
Defined.

Example rejected_rounds :
  get_day_of_week_body (long_distance_call_data.mk weekday.Friday 7 15 3)
    (stdin ["q9"])
    = Ok (long_distance_call_data.mk weekday.Friday 7 15 3, false)
         (mk_console EmptyString false day_prompt) /\
  get_start_time_body (long_distance_call_data.mk weekday.Friday 7 15 3)
    (stdin ["25:10"])
    = Ok (long_distance_call_data.mk weekday.Friday 7 15 3, false)
         (mk_console EmptyString false (time_prompt ++ invalid_hour_message)) /\
  get_length_of_call_body (long_distance_call_data.mk weekday.Friday 7 15 3)
    (stdin ["x12"])
    = Ok (long_distance_call_data.mk weekday.Friday 7 15 3, false)
         (mk_console EmptyString false (length_prompt ++ invalid_number_message)).
Proof. repeat split. Qed.

(** ** The echoed start time *)

(** C10. For an accepted start time the echoed text is the hour, a colon
    and [00] when the minutes are zero, and the hour, a colon and the
    minutes otherwise, each number written by [to_string] without padding:
    an accepted 9:05 is echoed as [9:5]. *)
Theorem get_time_formatted_accepted
    (d d' : long_distance_call_data.t) (c c' : console) (h m : Z) :
  check_start_time d (Some h) (Some m) c = Ok (d', true) c' ->
  (m = 0 ->
   long_distance_call_data.get_time_formatted d' = to_string h ++ ":" ++ "00") /\
  (m <> 0 ->
   long_distance_call_data.get_time_formatted d'
     = to_string h ++ ":" ++ to_string m) /\
  long_distance_call_data.get_time_formatted
    (long_distance_call_data.set_minute 5
       (long_distance_call_data.set_hour 9 d)) = "9:5".
Proof.
  intros H.
  assert (Hd : d' = long_distance_call_data.set_minute m
                      (long_distance_call_data.set_hour h d)).
  { destruct (accepted_time_dec h m) as [Ha | [Hh | [Hh Hm]]].
    - rewrite (check_start_time_accepts _ _ _ _ Ha) in H. now inversion H.
    - rewrite (check_start_time_hour _ _ _ _ Hh) in H. discriminate H.
    - rewrite (check_start_time_minutes _ _ _ _ Hh Hm) in H. discriminate H. }
  subst d'. unfold long_distance_call_data.get_time_formatted. simpl.
  split; [|split].
  - intros ->. reflexivity.
  - intros Hm. apply Z.eqb_neq in Hm. now rewrite Hm.
  - reflexivity.
Qed.

Lemma get_time_formatted_accepted_witness :
  long_distance_call_data.get_time_formatted
    (long_distance_call_data.set_minute 0
       (long_distance_call_data.set_hour 7 long_distance_call_data.default))
  = "7:00".
Proof.
  refine (proj1 (get_time_formatted_accepted long_distance_call_data.default
            _ (stdin []) (stdin []) 7 0 _) _); reflexivity.
Defined.

Example echoed_times :
  run 1 (lines ["th"; "9:05"; "15"; "N"])
  = Ok 0 (mk_console EmptyString false
            (hello ++ day_prompt ++ "You entered: Thursday" ++ nl ++ nl
             ++ time_prompt ++ "You entered the time: 9:5" ++ nl ++ nl
             ++ length_prompt ++ "You entered: 15 minutes." ++ nl ++ nl
             ++ "The cost of your call is $6.00" ++ nl ++ nl ++ nl
             ++ another_prompt ++ nl)).
Proof. vm_compute. reflexivity. Qed.

(** ** Fuel

    The loops of the source have no bound.  More fuel never changes a
    result, and the text on standard input bounds the fuel that is
    needed, so a result of the model is a result of the program. *)

Lemma refines_refl {A} (m : io A) : refines m m.
Proof. intros c _. reflexivity. Qed.

Lemma refines_bind {A B} (m m' : io A) (k k' : A -> io B) :
  refines m m' -> (forall a, refines (k a) (k' a)) ->
  refines (bind m k) (bind m' k').
Proof.
  intros Hm Hk c H. unfold bind in *.
  destruct (m c) as [a c1| c1 | e c1 |] eqn:E.
  - rewrite (Hm c), E by (rewrite E; discriminate). now apply Hk.
  - rewrite (Hm c), E by (rewrite E; discriminate). reflexivity.
  - rewrite (Hm c), E by (rewrite E; discriminate). reflexivity.
  - contradiction.
Qed.

Lemma while_not_refines body (n n' : nat) d :
  (n <= n')%nat -> refines (while_not n body d) (while_not n' body d).
Proof.
  revert n' d. induction n as [|n IH]; intros n' d Hle.
  - intros c H. now contradiction H.
  - destruct n' as [|n']; [lia|]. simpl.
    apply refines_bind; [apply refines_refl|].
    intros [d1 [|]]; simpl; [apply refines_refl | apply IH; lia].
Qed.

Lemma main_body_refines (n n' : nat) :
  (n <= n')%nat -> refines (main_body n) (main_body n').
Proof.
  intros Hle. unfold main_body, get_day_of_week, get_start_time,
    get_length_of_call.
  repeat (apply refines_bind;
          [first [now apply while_not_refines | apply refines_refl] | intros ?]).
  apply refines_refl.
Qed.

Lemma main_loop_refines (n n' : nat) :
  (n <= n')%nat -> refines (main_loop n) (main_loop n').
Proof.
  revert n'. induction n as [|n IH]; intros n' Hle.
  - intros c H. now contradiction H.
  - destruct n' as [|n']; [lia|].
    change (refines (bind (main_body (S n))
                       (fun quit => if quit then ret tt else main_loop n))
                    (bind (main_body (S n'))
                       (fun quit => if quit then ret tt else main_loop n'))).
    apply refines_bind; [now apply main_body_refines|].
    intros [|]; [apply refines_refl | apply IH; lia].
Qed.

(** More fuel does not change the outcome of a run. *)
Lemma run_more_fuel (n n' : nat) input :
  (n <= n')%nat -> run n input <> OutOfFuel -> run n' input = run n input.
Proof.
  intros Hle. unfold run, main.
  apply (refines_bind (main_loop n) (main_loop n')).
  - now apply main_loop_refines.
  - intros ?. apply refines_refl.
Qed.

Lemma bind_Ok {A B} (m : io A) (k : A -> io B) c b c' :
  bind m k c = Ok b c' -> exists a c1, m c = Ok a c1 /\ k a c1 = Ok b c'.
Proof.
  unfold bind. destruct (m c) as [a c1| | |]; try discriminate.
  intros H. now exists a, c1.
Qed.

Lemma safe_bind {A B} fuel (m : io A) (k : A -> io B) :
  safe fuel m -> (forall a, safe fuel (k a)) -> safe fuel (bind m k).
Proof.
  intros Hm Hk c Hc. destruct (Hm c Hc) as [Hne Hle]. unfold bind.
  destruct (m c) as [a c1| | |] eqn:E; try (split; [discriminate|discriminate]).
  - specialize (Hle a c1 eq_refl).
    destruct (Hk a c1) as [Hne' Hle']; [lia|].
    split; [exact Hne'|]. intros b c' H. specialize (Hle' b c' H). lia.
  - now contradiction Hne.
Qed.

Lemma safe_ret {A} fuel (a : A) : safe fuel (ret a).
Proof. intros c _. split; [discriminate|]. inversion 1; subst. lia. Qed.

Lemma safe_print fuel s : safe fuel (print s).
Proof.
  intros c _. split; [discriminate|]. inversion 1; subst. unfold pending; simpl. lia.
Qed.

Lemma safe_endl fuel : safe fuel endl.
Proof. apply safe_print. Qed.

Lemma safe_use {A} fuel (v : option A) : safe fuel (use v).
Proof.
  intros c _. unfold use. destruct v; (split; [discriminate|]);
    inversion 1; subst; lia.
Qed.

Lemma safe_throw {A} fuel e : safe fuel (@throw A e).
Proof. intros c _. split; discriminate. Qed.

Lemma skipws_length s : (String.length (skipws s) <= String.length s)%nat.
Proof.
  induction s as [|ch s IH]; simpl; [lia|].
  destruct (isspace ch); simpl; lia.
Qed.

Lemma skipws_head s ch rest : skipws s = String ch rest -> isspace ch = false.
Proof.
  induction s as [|x s IH]; simpl; [discriminate|].
  destruct (isspace x) eqn:E; [exact IH|]. now inversion 1; subst.
Qed.

Lemma read_digits_length s acc :
  (String.length (snd (read_digits s acc)) <= String.length s)%nat.
Proof.
  revert acc. induction s as [|ch s IH]; intros acc;
    cbn [read_digits String.length]; [simpl; lia|].
  destruct (isdigit ch); cbn [snd String.length];
    [specialize (IH (10 * acc + digit_value ch))|]; lia.
Qed.

Lemma read_digits_progress s acc :
  starts_with_digit s = true ->
  (String.length (snd (read_digits s acc)) < String.length s)%nat.
Proof.
  destruct s as [|ch s]; cbn [starts_with_digit read_digits String.length];
    [discriminate|]. intros ->.
  pose proof (read_digits_length s (10 * acc + digit_value ch)). lia.
Qed.

Lemma read_sign_length s :
  (String.length (snd (read_sign s)) <= String.length s)%nat.
Proof.
  destruct s as [|ch s]; simpl; [lia|].
  destruct (Ascii.eqb ch "-"); simpl; [lia|].
  destruct (Ascii.eqb ch "+"); simpl; lia.
Qed.

Lemma scan_int_progress s v rest :
  scan_int s = (v, true, rest) ->
  (String.length rest < String.length s)%nat.
Proof.
  unfold scan_int. pose proof (read_sign_length s) as Hs.
  destruct (read_sign s) as [negative s1]. simpl in Hs.
  destruct (starts_with_digit s1) eqn:Ed; [|discriminate].
  pose proof (read_digits_progress s1 0 Ed) as Hd.
  destruct (read_digits s1 0) as [n rest1]. simpl in Hd.
  destruct (_ >? INT_MAX); [discriminate|].
  destruct (_ <? INT_MIN); [discriminate|].
  inversion 1; subst. lia.
Qed.

Lemma read_token_length n s :
  (String.length (snd (read_token n s)) <= String.length s)%nat.
Proof.
  revert s. induction n as [|n IH]; intros s; simpl; [lia|].
  destruct s as [|ch s]; simpl; [lia|].
  destruct (isspace ch); simpl; [lia|].
  specialize (IH s). destruct (read_token n s); simpl in *. lia.
Qed.

Lemma drop_line_length s :
  (String.length (drop_line s) <= String.length s)%nat.
Proof.
  induction s as [|ch s IH]; simpl; [lia|].
  destruct (Ascii.eqb ch newline); lia.
Qed.

(** An extraction that writes its variable takes something off what is
    pending. *)
Lemma extract_char_pending c :
  exists v c', extract_char c = Ok v c' /\
    (pending c' <= pending c)%nat /\
    (v <> Datatypes.None -> (pending c' < pending c)%nat).
Proof.
  unfold extract_char, pending. destruct (failbit c) eqn:Ef.
  - exists Datatypes.None, c. rewrite Ef. repeat split; [lia | congruence].
  - pose proof (skipws_length (cin c)) as Hl.
    destruct (skipws (cin c)) as [|ch rest]; simpl in *.
    + eexists _, _. repeat split; simpl; [lia | congruence].
    + eexists _, _. repeat split; simpl; lia.
Qed.

Lemma extract_int_pending c :
  exists v c', extract_int c = Ok v c' /\
    (pending c' <= pending c)%nat /\
    (v <> Datatypes.None -> (pending c' < pending c)%nat).
Proof.
  unfold extract_int, pending. destruct (failbit c) eqn:Ef.
  - exists Datatypes.None, c. rewrite Ef. repeat split; [lia | congruence].
  - pose proof (skipws_length (cin c)) as Hl.
    destruct (skipws (cin c)) as [|ch rest]; simpl in Hl.
    + eexists _, _. repeat split; simpl; [lia | congruence].
    + destruct (scan_int (String ch rest)) as [[v good] rest'] eqn:Es.
      exists (Some v), (mk_console rest' (negb good) (cout c)).
      destruct good; simpl.
      * apply scan_int_progress in Es. simpl in Es. repeat split; lia.
      * repeat split; lia.
Qed.

Lemma extract_token_pending size c :
  (2 <= size)%nat ->
  exists v c', extract_token size c = Ok v c' /\
    (pending c' <= pending c)%nat /\
    (v <> Datatypes.None -> (pending c' < pending c)%nat).
Proof.
  intros Hsize. unfold extract_token, pending. destruct (failbit c) eqn:Ef.
  - exists Datatypes.None, c. rewrite Ef. repeat split; [lia | congruence].
  - pose proof (skipws_length (cin c)) as Hl.
    destruct (skipws (cin c)) as [|ch rest] eqn:Ew; simpl in Hl.
    + eexists _, _. repeat split; simpl; [lia | congruence].
    + apply skipws_head in Ew.
      destruct (size - 1)%nat as [|n] eqn:En; [lia|]. simpl. rewrite Ew.
      pose proof (read_token_length n rest) as Ht.
      destruct (read_token n rest) as [tok rest']. simpl in Ht.
      eexists _, _. repeat split; simpl; lia.
Qed.

Lemma ignore_line_pending c :
  exists c', ignore_line c = Ok tt c' /\ (pending c' <= pending c)%nat.
Proof.
  unfold ignore_line, pending. destruct (failbit c) eqn:Ef.
  - exists c. rewrite Ef. split; [reflexivity | lia].
  - eexists. split; [reflexivity|]. simpl.
    pose proof (drop_line_length (cin c)). lia.
Qed.

Lemma safe_extract_char fuel : safe fuel extract_char.
Proof.
  intros c _. destruct (extract_char_pending c) as (v & c' & E & Hle & _).
  rewrite E. split; [discriminate|]. inversion 1; subst. exact Hle.
Qed.

Lemma safe_ignore_line fuel : safe fuel ignore_line.
Proof.
  intros c _. destruct (ignore_line_pending c) as (c' & E & Hle).
  rewrite E. split; [discriminate|]. inversion 1; subst. exact Hle.
Qed.

Lemma read_two_letters_pending c :
  exists v1 v2 c', read_two_letters c = Ok (v1, v2) c' /\
    (pending c' <= pending c)%nat /\
    (v1 <> Datatypes.None -> (pending c' < pending c)%nat).
Proof.
  unfold read_two_letters, bind, ret.
  destruct (extract_char_pending c) as (v1 & c1 & E1 & L1 & S1). rewrite E1.
  destruct (extract_char_pending c1) as (v2 & c2 & E2 & L2 & _). rewrite E2.
  destruct (ignore_line_pending c2) as (c3 & E3 & L3). rewrite E3.
  exists v1, v2, c3. split; [reflexivity|]. split; [lia|].
  intros H. specialize (S1 H). lia.
Qed.

Lemma read_hour_minutes_pending c :
  exists v1 v2 c', read_hour_minutes c = Ok (v1, v2) c' /\
    (pending c' <= pending c)%nat /\
    (v1 <> Datatypes.None -> (pending c' < pending c)%nat).
Proof.
  unfold read_hour_minutes, bind, ret.
  destruct (extract_int_pending c) as (v1 & c1 & E1 & L1 & S1). rewrite E1.
  destruct (extract_char_pending c1) as (sep & c2 & E2 & L2 & _). rewrite E2.
  destruct (extract_int_pending c2) as (v2 & c3 & E3 & L3 & _). rewrite E3.
  destruct (ignore_line_pending c3) as (c4 & E4 & L4). rewrite E4.
  exists v1, v2, c4. split; [reflexivity|]. split; [lia|].
  intros H. specialize (S1 H). lia.
Qed.

Lemma read_length_text_pending c :
  exists v c', read_length_text c = Ok v c' /\
    (pending c' <= pending c)%nat /\
    (v <> Datatypes.None -> (pending c' < pending c)%nat).
Proof.
  unfold read_length_text, bind, ret.
  destruct (extract_token_pending 256 c) as (v & c1 & E1 & L1 & S1); [lia|].
  rewrite E1.
  destruct (ignore_line_pending c1) as (c2 & E2 & L2). rewrite E2.
  exists v, c2. split; [reflexivity|]. split; [lia|].
  intros H. specialize (S1 H). lia.
Qed.

Lemma select_weekday_pending d f s c r c' :
  select_weekday d f s c = Ok r c' ->
  f <> Datatypes.None /\ pending c' = pending c.
Proof.
  destruct f as [a|]; intros H;
    [split; [discriminate|] | unfold select_weekday, bind, use in H; discriminate H].
  unfold select_weekday, bind, use, print, ret in H.
  split_cases H; injection H as _ Hc; rewrite <- Hc; reflexivity.
Qed.

Lemma check_start_time_pending d h m c r c' :
  check_start_time d h m c = Ok r c' ->
  h <> Datatypes.None /\ pending c' = pending c.
Proof.
  destruct h as [a|]; intros H;
    [split; [discriminate|] | unfold check_start_time, bind, use in H; discriminate H].
  unfold check_start_time, bind, use, endl, print, ret in H.
  split_cases H; injection H as _ Hc; rewrite <- Hc; reflexivity.
Qed.

Lemma check_length_of_call_pending d buf c r c' :
  check_length_of_call d buf c = Ok r c' ->
  buf <> Datatypes.None /\ pending c' = pending c.
Proof.
  destruct buf as [a|]; intros H;
    [split; [discriminate|]
    | unfold check_length_of_call, bind, use in H; discriminate H].
  unfold check_length_of_call, bind, use, print, ret, throw in H.
  split_cases H; injection H as _ Hc; rewrite <- Hc; reflexivity.
Qed.

Lemma select_weekday_fuel d f s c : select_weekday d f s c <> OutOfFuel.
Proof.
  intros H. unfold select_weekday, bind, use, print, ret in H. split_cases H.
Qed.

Lemma check_start_time_fuel d h m c : check_start_time d h m c <> OutOfFuel.
Proof.
  intros H. unfold check_start_time, bind, use, endl, print, ret in H.
  split_cases H.
Qed.

Lemma check_length_of_call_fuel d buf c :
  check_length_of_call d buf c <> OutOfFuel.
Proof.
  intros H. unfold check_length_of_call, bind, use, print, ret, throw in H.
  split_cases H.
Qed.

(** Every round of an input loop that returns has extracted something. *)
Lemma get_day_of_week_body_progress d c :
  get_day_of_week_body d c <> OutOfFuel /\
  forall r c', get_day_of_week_body d c = Ok r c' ->
               (pending c' < pending c)%nat.
Proof.
  rewrite get_day_of_week_body_unfold.
  destruct (read_two_letters_pending (wrote c day_prompt))
    as (v1 & v2 & c1 & E & Hle & Hlt).
  rewrite E. split; [apply select_weekday_fuel|].
  intros r c' H. apply select_weekday_pending in H as [Hv Hp].
  specialize (Hlt Hv). change (pending (wrote c day_prompt)) with (pending c) in Hlt.
  lia.
Qed.

Lemma get_start_time_body_progress d c :
  get_start_time_body d c <> OutOfFuel /\
  forall r c', get_start_time_body d c = Ok r c' ->
               (pending c' < pending c)%nat.
Proof.
  rewrite get_start_time_body_unfold.
  destruct (read_hour_minutes_pending (wrote c time_prompt))
    as (v1 & v2 & c1 & E & Hle & Hlt).
  rewrite E. split; [apply check_start_time_fuel|].
  intros r c' H. apply check_start_time_pending in H as [Hv Hp].
  specialize (Hlt Hv). change (pending (wrote c time_prompt)) with (pending c) in Hlt.
  lia.
Qed.

Lemma get_length_of_call_body_progress d c :
  get_length_of_call_body d c <> OutOfFuel /\
  forall r c', get_length_of_call_body d c = Ok r c' ->
               (pending c' < pending c)%nat.
Proof.
  rewrite get_length_of_call_body_unfold.
  destruct (read_length_text_pending (wrote c length_prompt))
    as (v & c1 & E & Hle & Hlt).
  rewrite E. split; [apply check_length_of_call_fuel|].
  intros r c' H. apply check_length_of_call_pending in H as [Hv Hp].
  specialize (Hlt Hv).
  change (pending (wrote c length_prompt)) with (pending c) in Hlt.
  lia.
Qed.

(** A loop whose rounds make progress ends within the fuel that the
    console allows. *)
Lemma while_not_enough_fuel body :
  (forall d c, body d c <> OutOfFuel /\
     forall r c', body d c = Ok r c' -> (pending c' < pending c)%nat) ->
  forall fuel d c, (pending c < fuel)%nat ->
    while_not fuel body d c <> OutOfFuel /\
    forall d' c', while_not fuel body d c = Ok d' c' ->
                  (pending c' < pending c)%nat.
Proof.
  intros Hbody. induction fuel as [|fuel IH]; intros d c Hc; [lia|].
  simpl. unfold bind. destruct (Hbody d c) as [Hne Hlt].
  destruct (body d c) as [[d1 valid] c1| | |] eqn:E;
    try (split; discriminate); [|now contradiction Hne].
  specialize (Hlt _ _ eq_refl). simpl.
  destruct valid.
  - split; [discriminate|]. unfold ret. inversion 1; subst. exact Hlt.
  - destruct (IH d1 c1) as [Hne' Hlt']; [lia|].
    split; [exact Hne'|]. intros d' c' H. specialize (Hlt' _ _ H). lia.
Qed.

Lemma safe_while_not body fuel d :
  (forall d c, body d c <> OutOfFuel /\
     forall r c', body d c = Ok r c' -> (pending c' < pending c)%nat) ->
  safe fuel (while_not fuel body d).
Proof.
  intros Hbody c Hc.
  destruct (while_not_enough_fuel body Hbody fuel d c Hc) as [Hne Hlt].
  split; [exact Hne|]. intros a c' H. specialize (Hlt _ _ H). lia.
Qed.

Lemma safe_answer fuel q : safe fuel (answer q).
Proof.
  unfold answer. destruct (Ascii.eqb (tolower q) "n"); [apply safe_ret|].
  destruct (Ascii.eqb (tolower q) "y"); [apply safe_ret|].
  apply safe_bind; [apply safe_print | intros ?; apply safe_ret].
Qed.

Ltac solve_safe :=
  repeat first
    [ apply safe_bind; [|intros ?]
    | apply safe_print
    | apply safe_ret
    | apply safe_extract_char
    | apply safe_ignore_line
    | apply safe_answer
    | apply safe_while_not; first
        [ apply get_day_of_week_body_progress
        | apply get_start_time_body_progress
        | apply get_length_of_call_body_progress ] ].

Lemma safe_main_body fuel : safe fuel (main_body fuel).
Proof.
  unfold main_body, get_day_of_week, get_start_time, get_length_of_call.
  solve_safe.
Qed.

Lemma main_body_progress fuel c :
  (pending c < fuel)%nat ->
  main_body fuel c <> OutOfFuel /\
  forall q c', main_body fuel c = Ok q c' -> (pending c' < pending c)%nat.
Proof.
  intros Hc. split; [apply (safe_main_body fuel c Hc)|].
  intros q c' H. unfold main_body in H.
  apply bind_Ok in H as ([] & c0 & H0 & H).
  apply bind_Ok in H as (d1 & c1 & H1 & H).
  inversion H0; subst c0. clear H0.
  destruct (while_not_enough_fuel _ get_day_of_week_body_progress fuel
              long_distance_call_data.default
              (mk_console (cin c) (failbit c) (cout c ++ hello)) Hc)
    as [_ Hlt].
  specialize (Hlt _ _ H1).
  change (pending (mk_console (cin c) (failbit c) (cout c ++ hello)))
    with (pending c) in Hlt.
  match type of H with
  | ?m c1 = _ => assert (Hs : safe fuel m)
  end.
  { unfold get_start_time, get_length_of_call. solve_safe. }
  destruct (Hs c1) as [_ Hle]; [lia|].
  specialize (Hle _ _ H). lia.
Qed.

Lemma main_loop_enough_fuel fuel c :
  (pending c < fuel)%nat -> main_loop fuel c <> OutOfFuel.
Proof.
  revert c. induction fuel as [|fuel IH]; intros c Hc; [lia|].
  change (bind (main_body (S fuel))
            (fun quit => if quit then ret tt else main_loop fuel) c
          <> OutOfFuel).
  unfold bind. destruct (main_body_progress (S fuel) c Hc) as [Hne Hlt].
  destruct (main_body (S fuel) c) as [quit c1| | |]; try discriminate;
    [|now contradiction Hne].
  specialize (Hlt _ _ eq_refl).
  destruct quit; [discriminate|]. apply IH. lia.
Qed.

(** The program, run on any text, does not need more fuel than the text
    has characters (and two more). *)
Theorem run_enough_fuel input fuel :
  (String.length input + 2 <= fuel)%nat -> run fuel input <> OutOfFuel.
Proof.
  intros Hf. unfold run, main, bind.
  pose proof (main_loop_enough_fuel fuel (mk_console input false EmptyString))
    as H.
  destruct (main_loop fuel _) as [[] c1| | |]; try discriminate.
  exfalso. apply H; [unfold pending; simpl; lia | reflexivity].
Qed.

Lemma run_enough_fuel_witness : run 3 "n" <> OutOfFuel.
Proof. apply (run_enough_fuel "n" 3). simpl. lia. Defined.

(** ** Read call length *)

Lemma isdigit_facts ch :
  isdigit ch = true ->
  isspace ch = false /\ Ascii.eqb ch "-" = false /\ Ascii.eqb ch "+" = false /\
  0 <= digit_value ch <= 9.
Proof.
  destruct ch as [[] [] [] [] [] [] [] []]; vm_compute; intros H;
    try discriminate H; repeat split; discriminate.
Qed.

Lemma read_digits_value s acc :
  fst (read_digits s acc)
  = fold_left (fun a ch => 10 * a + digit_value ch)
      (list_ascii_of_string (numeric_prefix s)) acc.
Proof.
  revert acc. induction s as [|ch s IH]; intros acc;
    cbn [read_digits numeric_prefix]; [reflexivity|].
  destruct (isdigit ch); [|reflexivity].
  cbn [list_ascii_of_string fold_left]. apply IH.
Qed.

Lemma read_digits_nonneg s acc : 0 <= acc -> 0 <= fst (read_digits s acc).
Proof.
  revert acc. induction s as [|ch s IH]; intros acc Hacc;
    cbn [read_digits]; [exact Hacc|].
  destruct (isdigit ch) eqn:E; [|exact Hacc].
  apply IH. destruct (isdigit_facts ch E) as (_ & _ & _ & Hd). lia.
Qed.

(** On a text that starts with a digit, [stoi] gives the value of the
    leading numeric prefix, or throws when that value is not an [int]. *)
Lemma stoi_digit_leading buf :
  isdigit (first_char buf) = true ->
  stoi buf = if decimal_value (numeric_prefix buf) >? INT_MAX
             then inl out_of_range
             else inr (decimal_value (numeric_prefix buf)).
Proof.
  destruct buf as [|ch rest]; [discriminate|]. cbn [first_char]. intros Hd.
  destruct (isdigit_facts ch Hd) as (Hs & Hm & Hp & _).
  unfold stoi. cbn [skipws]. rewrite Hs. cbn [read_sign]. rewrite Hm, Hp.
  cbn [starts_with_digit]. rewrite Hd.
  pose proof (read_digits_value (String ch rest) 0) as Hv.
  pose proof (read_digits_nonneg (String ch rest) 0 (Z.le_refl 0)) as Hn.
  destruct (read_digits (String ch rest) 0) as [v rest']. cbn [fst] in Hv, Hn.
  fold (decimal_value (numeric_prefix (String ch rest))) in Hv. rewrite <- Hv.
  replace (v <? INT_MIN) with false
    by (symmetry; apply Z.ltb_ge; unfold INT_MIN; lia).
  now rewrite orb_false_r.
Qed.

(** A text that does not start with a digit is rejected with the message,
    and the loop goes round again. *)
Lemma get_length_of_call_rejects_non_digit d c c' buf :
  read_length_text (wrote c length_prompt) = Ok (Some buf) c' ->
  isdigit (first_char buf) = false ->
  get_length_of_call_body d c = Ok (d, false) (wrote c' invalid_number_message) /\
  forall fuel, get_length_of_call (S fuel) d c
               = get_length_of_call fuel d (wrote c' invalid_number_message).
Proof.
  intros Hread Hd.
  assert (H : get_length_of_call_body d c
              = Ok (d, false) (wrote c' invalid_number_message)).
  { rewrite get_length_of_call_body_unfold, Hread.
    unfold check_length_of_call, bind, use. now rewrite Hd. }
  split; [exact H|]. intros fuel. unfold get_length_of_call.
  now rewrite (while_not_round fuel _ d c _ false _ H).
Qed.


(** A text that starts with a digit and whose leading numeric prefix is
    above [INT_MAX] makes [stoi] throw: nothing is stored and nothing
    catches the exception. *)
Lemma get_length_of_call_overflow d c c' buf :
  read_length_text (wrote c length_prompt) = Ok (Some buf) c' ->
  isdigit (first_char buf) = true ->
  INT_MAX < decimal_value (numeric_prefix buf) ->
  get_length_of_call_body d c = Terminate out_of_range c' /\
  forall fuel, get_length_of_call (S fuel) d c = Terminate out_of_range c'.
Proof.
  intros Hread Hd Hgt.
  assert (H : get_length_of_call_body d c = Terminate out_of_range c').
  { rewrite get_length_of_call_body_unfold, Hread.
    unfold check_length_of_call, bind, use. rewrite Hd. cbn [negb].
    rewrite (stoi_digit_leading buf Hd).
    replace (_ >? INT_MAX) with true; [reflexivity|].
    symmetry. rewrite Z.gtb_ltb. apply Z.ltb_lt. exact Hgt. }
  split; [exact H|]. intros fuel. unfold get_length_of_call.
  simpl. unfold bind. now rewrite H.
Qed.

Example call_length_examples :
  decimal_value (numeric_prefix "12abc") = 12 /\
  decimal_value (numeric_prefix "007") = 7 /\
  decimal_value (numeric_prefix "2147483647") = INT_MAX /\
  get_length_of_call 1 long_distance_call_data.default (stdin ["12abc 9"; "n"])
    = Ok (long_distance_call_data.set_length_of_call 12
            long_distance_call_data.default)
         (mk_console (lines ["n"]) false length_prompt) /\
  get_length_of_call 2 long_distance_call_data.default (stdin ["-5"; "2147483647"])
    = Ok (long_distance_call_data.set_length_of_call 2147483647
            long_distance_call_data.default)
         (mk_console EmptyString false
            (length_prompt ++ invalid_number_message ++ length_prompt)).
Proof. repeat split. Qed.

(** C4 at the input [99999999999]: the first character is a digit, the
    leading numeric prefix is the whole text, and the round neither
    stores its value nor rejects it with the message: [stoi] throws
    [out_of_range], with only the prompt written. *)
Theorem get_length_of_call_out_of_range :
  isdigit (first_char "99999999999") = true /\
  decimal_value (numeric_prefix "99999999999") = 99999999999 /\
  get_length_of_call_body long_distance_call_data.default (stdin ["99999999999"])
    = Terminate out_of_range (mk_console EmptyString false length_prompt) /\
  forall fuel,
    get_length_of_call (S fuel) long_distance_call_data.default
      (stdin ["99999999999"])
    = Terminate out_of_range (mk_console EmptyString false length_prompt).
Proof.
  split; [reflexivity|]. split; [reflexivity|].
  apply (get_length_of_call_overflow long_distance_call_data.default
           (stdin ["99999999999"]) (mk_console EmptyString false length_prompt)
           "99999999999"); [reflexivity | reflexivity | reflexivity].
Qed.

(** ** The session loop *)

Lemma answer_quits q c :
  is_letter q "n" "N" = true -> answer q c = Ok true c.
Proof.
  intros H. unfold answer.
  destruct (is_letter_cases _ _ _ H) as [-> | ->]; reflexivity.
Qed.

Lemma tolower_n_y q :
  Ascii.eqb (tolower q) "n" = is_letter q "n" "N" /\
  Ascii.eqb (tolower q) "y" = is_letter q "y" "Y".
Proof. destruct q as [[] [] [] [] [] [] [] []]; vm_compute; split; reflexivity. Qed.

(** Every answer but [n] and [N] keeps the session running: [y] and [Y]
    silently, anything else with "I'll take that as a yes". *)
Lemma answer_continues q c :
  is_letter q "n" "N" = false ->
  answer q c = Ok false (if is_letter q "y" "Y" then c else wrote c take_as_yes).
Proof.
  intros H. unfold answer. destruct (tolower_n_y q) as [-> ->]. rewrite H.
  destruct (is_letter q "y" "Y"); reflexivity.
Qed.

(** When [main] returns, it returns 0. *)
Lemma main_returns_zero fuel c z c' : main fuel c = Ok z c' -> z = 0.
Proof.
  unfold main. intros H.
  apply bind_Ok in H as (? & ? & _ & H).
  apply bind_Ok in H as (? & ? & _ & H).
  now inversion H.
Qed.

Example two_calls_then_quit :
  run 2 (lines ["Mo"; "09:30"; "10"; "y"; "Sa"; "23:00"; "60"; "n"])
  = Ok 0 (mk_console EmptyString false
            (hello ++ day_prompt ++ "You entered: Monday" ++ nl ++ nl
             ++ time_prompt ++ "You entered the time: 9:30" ++ nl ++ nl
             ++ length_prompt ++ "You entered: 10 minutes." ++ nl ++ nl
             ++ "The cost of your call is $4.00" ++ nl ++ nl ++ nl
             ++ another_prompt
             ++ hello ++ day_prompt ++ "You entered: Saturday" ++ nl ++ nl
             ++ time_prompt ++ "You entered the time: 23:00" ++ nl ++ nl
             ++ length_prompt ++ "You entered: 60 minutes." ++ nl ++ nl
             ++ "The cost of your call is $9.00" ++ nl ++ nl ++ nl
             ++ another_prompt ++ nl)).
Proof. vm_compute. reflexivity. Qed.

(** C9 at the input Mo / 09:30 / 99999999999: with any fuel the run ends
    neither by [main] returning 0 nor by waiting for more input; the
    exception thrown by [stoi] leaves [main] before the continue prompt
    is reached. *)
Theorem run_ends_by_uncaught_exception (fuel : nat) :
  run (S fuel) (lines ["Mo"; "09:30"; "99999999999"; "n"])
  = Terminate out_of_range
      (mk_console (lines ["n"]) false
         (hello ++ day_prompt ++ "You entered: Monday" ++ nl ++ nl
          ++ time_prompt ++ "You entered the time: 9:30" ++ nl ++ nl
          ++ length_prompt)).
Proof.
  rewrite (run_more_fuel 1 (S fuel)); [vm_compute; reflexivity | lia |].
  vm_compute. discriminate.
Qed.

(** ** Decimal text

    [stoi] reads back what [to_string] writes, and for a call of up to a
    week the printed cost is the exact decimal product. *)

Lemma numeric_prefix_uint u rest :
  starts_with_digit rest = false ->
  numeric_prefix (NilEmpty.string_of_uint u ++ rest) = NilEmpty.string_of_uint u.
Proof.
  intros Hr. induction u; simpl; try (now rewrite IHu).
  destruct rest as [|ch rest]; [reflexivity|]. simpl in *. now rewrite Hr.
Qed.

Lemma fold_uint_acc u p :
  fold_left (fun a ch => 10 * a + digit_value ch)
    (list_ascii_of_string (NilEmpty.string_of_uint u)) (Zpos p)
  = Zpos (Pos.of_uint_acc u p).
Proof.
  revert p. induction u; intros p;
    cbn [NilEmpty.string_of_uint list_ascii_of_string fold_left Pos.of_uint_acc];
    try reflexivity.
  all: rewrite <- IHu; f_equal; rewrite ?Pos2Z.inj_add, Pos2Z.inj_mul;
    vm_compute digit_value; lia.
Qed.

Lemma decimal_value_uint u :
  decimal_value (NilEmpty.string_of_uint u) = Z.of_N (Pos.of_uint u).
Proof.
  unfold decimal_value.
  induction u;
    cbn [NilEmpty.string_of_uint list_ascii_of_string fold_left Pos.of_uint];
    try reflexivity;
    try (change (10 * 0 + digit_value "0") with 0; exact IHu).
  all: match goal with
       | |- fold_left _ _ ?a = Z.of_N (Npos (Pos.of_uint_acc _ ?q)) =>
           change a with (Zpos q)
       end; apply fold_uint_acc.
Qed.

Lemma to_string_pos p :
  to_string (Zpos p) = NilEmpty.string_of_uint (Pos.to_uint p) /\
  isdigit (first_char (to_string (Zpos p))) = true.
Proof.
  unfold to_string. cbn [Z.to_int NilZero.string_of_int].
  pose proof (Unsigned.of_to p) as H.
  destruct (Pos.to_uint p); try discriminate H; split; reflexivity.
Qed.

(** [stoi] inverts [to_string] on the durations the program can hold,
    whatever non-digit text follows the number. *)
Theorem stoi_to_string n rest :
  0 <= n <= INT_MAX -> starts_with_digit rest = false ->
  stoi (to_string n ++ rest) = inr n.
Proof.
  intros Hn Hr.
  assert (H : isdigit (first_char (to_string n ++ rest)) = true /\
              decimal_value (numeric_prefix (to_string n ++ rest)) = n).
  { destruct n as [|p|p]; [| |lia].
    - split; [reflexivity|].
      change (to_string 0) with (NilEmpty.string_of_uint (Decimal.D0 Decimal.Nil)).
      now rewrite numeric_prefix_uint.
    - destruct (to_string_pos p) as [E Hd]. split.
      + destruct (to_string (Zpos p)); [discriminate Hd | exact Hd].
      + rewrite E, numeric_prefix_uint, decimal_value_uint by exact Hr.
        now rewrite Unsigned.of_to. }
  destruct H as [Hd Hv]. rewrite (stoi_digit_leading _ Hd), Hv.
  replace (n >? INT_MAX) with false; [reflexivity|].
  symmetry. rewrite Z.gtb_ltb. apply Z.ltb_ge. lia.
Qed.

Lemma stoi_to_string_witness : stoi (to_string 90 ++ "min") = inr 90.
Proof. apply (stoi_to_string 90 "min"); [unfold INT_MAX; lia | reflexivity]. Defined.

Lemma all_upto_spec k p :
  all_upto k p = true -> forall n, 0 <= n <= Z.of_nat k -> p n = true.
Proof.
  induction k as [|k IH]; intros H n Hn.
  - simpl in *. now replace n with 0 by lia.
  - cbn [all_upto] in H. apply andb_true_iff in H as [Hk Hrest].
    destruct (Z.eq_dec n (Z.of_nat (S k))) as [-> | Hne]; [exact Hk|].
    apply IH; [exact Hrest | lia].
Qed.

(** For a call of up to 10080 minutes (a week) the cost as printed is the
    exact product of the duration and the rate in dollars and cents: the
    rounding of the binary32 product does not show. *)
Lemma printed_cost_is_exact (r : long_distance_call_data.t) (cents : Z) :
  In cents [15; 25; 40] ->
  0 <= long_distance_call_data.get_length_of_call r <= 10080 ->
  show_fixed2 (duration_times r cents)
  = show_cents (cents * long_distance_call_data.get_length_of_call r).
Proof.
  intros Hc Hn. unfold duration_times.
  generalize dependent (long_distance_call_data.get_length_of_call r).
  intros n Hn. apply String.eqb_eq.
  revert n Hn.
  assert (Hall : forall rate, In rate [15; 25; 40] ->
            all_upto (Z.to_nat 10080) (fun n =>
              String.eqb (show_fixed2 (F32.mul (F32.of_int n) (F32.literal rate 100)))
                         (show_cents (rate * n))) = true).
  { intros rate [<- | [<- | [<- | []]]]; vm_compute; reflexivity. }
  intros n Hn.
  apply (all_upto_spec (Z.to_nat 10080) _ (Hall cents Hc) n). lia.
Qed.

Example show_fixed2_examples :
  show_fixed2 (F32.literal 1 8) = "0.12" /\
  show_fixed2 (F32.literal 3 8) = "0.38" /\
  show_fixed2 (F32.literal 15 100) = "0.15" /\
  show_fixed2 (F32.of_int 0) = "0.00" /\
  show_fixed2 (F32.mul (F32.of_int 15) (F32.literal 25 100)) = "3.75" /\
  show_fixed2 (F32.of_int 16777217) = "16777216.00".
Proof. repeat split. Qed.

Example extraction_examples :
  read_hour_minutes (stdin ["16:32"])
    = Ok (Some 16, Some 32) (mk_console EmptyString false EmptyString) /\
  read_hour_minutes (stdin [" 7 h 05 and more"])
    = Ok (Some 7, Some 5) (mk_console EmptyString false EmptyString) /\
  read_hour_minutes (stdin ["-3:20"; "x"])
    = Ok (Some (-3), Some 20) (mk_console (lines ["x"]) false EmptyString) /\
  read_hour_minutes (stdin ["ab:cd"])
    = Ok (Some 0, Datatypes.None) (mk_console (lines ["ab:cd"]) true EmptyString) /\
  read_hour_minutes (stdin ["99999999999:10"])
    = Ok (Some INT_MAX, Datatypes.None)
         (mk_console (lines [":10"]) true EmptyString) /\
  read_hour_minutes (stdin ["12:xx"])
    = Ok (Some 12, Some 0) (mk_console (lines ["xx"]) true EmptyString) /\
  read_two_letters (stdin ["Monday"; "x"])
    = Ok (Some "M"%char, Some "o"%char)
         (mk_console (lines ["x"]) false EmptyString) /\
  read_two_letters (stdin ["M"; "o"])
    = Ok (Some "M"%char, Some "o"%char)
         (mk_console EmptyString false EmptyString) /\
  read_two_letters (stdin ["M"])
    = Ok (Some "M"%char, Datatypes.None)
         (mk_console EmptyString true EmptyString) /\
  read_length_text (stdin ["  45 minutes"; "x"])
    = Ok (Some "45") (mk_console (lines ["x"]) false EmptyString).
Proof. repeat split. Qed.

(** ** Leaving the session *)




(** The five scenarios of the specification, from the text typed to the
    text printed. *)
Example scenarios :
  run 1 (lines ["Mo"; "09:30"; "10"; "n"])
    = Ok 0 (mk_console EmptyString false
              (transcript "Monday" "9:30" "10" "4.00" ++ another_prompt ++ nl)) /\
  run 1 (lines ["Sa"; "23:00"; "60"; "n"])
    = Ok 0 (mk_console EmptyString false
              (transcript "Saturday" "23:00" "60" "9.00" ++ another_prompt ++ nl)) /\
  run 1 (lines ["Th"; "06:00"; "15"; "n"])
    = Ok 0 (mk_console EmptyString false
              (transcript "Thursday" "6:00" "15" "3.75" ++ another_prompt ++ nl)) /\
  run 1 (lines ["Su"; "12:00"; "1"; "n"])
    = Ok 0 (mk_console EmptyString false
              (transcript "Sunday" "12:00" "1" "0.15" ++ another_prompt ++ nl)) /\
  run 1 (lines ["Fr"; "18:45"; "20"; "n"])
    = Ok 0 (mk_console EmptyString false
              (transcript "Friday" "18:45" "20" "8.00" ++ another_prompt ++ nl)).
Proof. repeat split; vm_compute; reflexivity. Qed.

(** An answer that is neither yes nor no is taken as yes. *)
Example any_other_answer_continues :
  run 2 (lines ["Su"; "12:00"; "1"; "?"; "Fr"; "18:45"; "20"; "N"])
    = Ok 0 (mk_console EmptyString false
              (transcript "Sunday" "12:00" "1" "0.15" ++ another_prompt
               ++ take_as_yes
               ++ transcript "Friday" "18:45" "20" "8.00" ++ another_prompt
               ++ nl)).
Proof. vm_compute. reflexivity. Qed.

(** * Further properties of the code *)

(** ** What the echoes read back as *)

(** Each of the seven day names that [main] echoes, typed at the weekday
    prompt, is decoded as that day. *)
Theorem weekday_name_reads_back (w : weekday.t) (d : long_distance_call_data.t) :
  a_day w ->
  get_day_of_week_body d
    (stdin [long_distance_call_data.get_text_for_enum (weekday.to_int w)])
  = Ok (long_distance_call_data.set_weekday w d, true)
       (mk_console EmptyString false day_prompt).
Proof.
  intros [[H | [H | [H | [H | H]]]] | [H | H]]; rewrite H; reflexivity.
Qed.

Lemma weekday_name_reads_back_witness :
  get_day_of_week_body long_distance_call_data.default (stdin ["Thursday"])
  = Ok (long_distance_call_data.set_weekday weekday.Thursday
          long_distance_call_data.default, true)
       (mk_console EmptyString false day_prompt).
Proof.
  apply (weekday_name_reads_back weekday.Thursday long_distance_call_data.default).
  left; right; right; right; left; reflexivity.
Defined.

(** The index that [main] passes to [get_text_for_enum] is always inside
    the table of eight names, and different enumerators have different
    names. *)
Theorem weekday_names_in_table :
  (forall w, (Z.to_nat (weekday.to_int w)
              < List.length long_distance_call_data.weekday_strings_)%nat) /\
  (forall w1 w2,
     long_distance_call_data.get_text_for_enum (weekday.to_int w1)
     = long_distance_call_data.get_text_for_enum (weekday.to_int w2) ->
     w1 = w2).
Proof.
  split.
  - intros w; destruct w; simpl; lia.
  - intros w1 w2; destruct w1, w2; intros H; try reflexivity; discriminate H.
Qed.

Lemma weekday_names_in_table_witness : weekday.Sunday = weekday.Sunday.
Proof.
  apply (proj2 weekday_names_in_table weekday.Sunday weekday.Sunday).
  reflexivity.
Defined.

Lemma time_text_of d :
  long_distance_call_data.get_time_formatted d
  = time_text (long_distance_call_data.get_hour d)
              (long_distance_call_data.get_minutes d).
Proof. reflexivity. Qed.

Lemma time_reads_back_all h m :
  0 <= h <= 24 -> 0 <= m <= 59 -> time_reads_back h m = true.
Proof.
  intros Hh Hm.
  assert (Hall : all_upto 24 (fun h => all_upto 59 (time_reads_back h)) = true)
    by (vm_compute; reflexivity).
  apply (all_upto_spec 59 (time_reads_back h)); [|simpl; lia].
  apply (all_upto_spec 24 (fun h => all_upto 59 (time_reads_back h)) Hall).
  simpl; lia.
Qed.

Lemma time_reads_back_spec h m :
  time_reads_back h m = true ->
  read_hour_minutes (wrote (stdin [time_text h m]) time_prompt)
  = Ok (Some h, Some m) (mk_console EmptyString false time_prompt).
Proof.
  unfold time_reads_back.
  destruct (read_hour_minutes _) as [[[h'|] [m'|]] [i f o]| | |];
    try discriminate.
  simpl. intros H.
  apply andb_true_iff in H as [H Ho]. apply andb_true_iff in H as [H Hf].
  apply andb_true_iff in H as [H Hi]. apply andb_true_iff in H as [H1 H2].
  apply Z.eqb_eq in H1, H2. apply String.eqb_eq in Hi, Ho.
  apply negb_true_iff in Hf. now subst.
Qed.

(** The echo of an accepted start time, typed back at the time prompt, is
    accepted as the same start time (so [9:5] reads back as 9:05 and
    [7:00] as 7:00). *)
Theorem echoed_time_reads_back (d : long_distance_call_data.t) (h m : Z) :
  accepted_time h m ->
  get_start_time_body d
    (stdin [long_distance_call_data.get_time_formatted
              (long_distance_call_data.set_minute m
                 (long_distance_call_data.set_hour h d))])
  = Ok (long_distance_call_data.set_minute m
          (long_distance_call_data.set_hour h d), true)
       (mk_console EmptyString false time_prompt).
Proof.
  intros Ha. rewrite time_text_of. simpl long_distance_call_data.get_hour.
  simpl long_distance_call_data.get_minutes.
  rewrite get_start_time_body_unfold.
  destruct Ha as (Hh & Hm & H24).
  rewrite (time_reads_back_spec h m (time_reads_back_all h m Hh Hm)).
  apply check_start_time_accepts. exact (conj Hh (conj Hm H24)).
Qed.

Lemma echoed_time_reads_back_witness :
  get_start_time_body long_distance_call_data.default (stdin ["9:5"])
  = Ok (long_distance_call_data.set_minute 5
          (long_distance_call_data.set_hour 9 long_distance_call_data.default),
        true)
       (mk_console EmptyString false time_prompt).
Proof.
  apply (echoed_time_reads_back long_distance_call_data.default 9 5).
  unfold accepted_time. lia.
Defined.

(** ** What each reader changes and what it leaves *)

Lemma while_not_relates (R : long_distance_call_data.t ->
                             long_distance_call_data.t -> Prop) body :
  (forall d c d' c', body d c = Ok (d', false) c' -> d' = d) ->
  (forall d c d' c', body d c = Ok (d', true) c' -> R d d') ->
  forall fuel d c d' c', while_not fuel body d c = Ok d' c' -> R d d'.
Proof.
  intros Hrej Hacc. induction fuel as [|fuel IH]; intros d c d' c' H;
    [discriminate H|].
  simpl in H. unfold bind in H.
  destruct (body d c) as [[d1 [|]] c1| | |] eqn:E; try discriminate H;
    simpl in H.
  - inversion H; subst. eapply Hacc; eassumption.
  - rewrite <- (Hrej _ _ _ _ E). eapply IH; eassumption.
Qed.

Lemma select_weekday_stores d f s c d' c' :
  select_weekday d f s c = Ok (d', true) c' ->
  exists w, a_day w /\ d' = long_distance_call_data.set_weekday w d.
Proof.
  intros H. unfold select_weekday, bind, use, print, ret in H.
  split_cases H; injection H as <- _; eexists; (split; [|reflexivity]);
    unfold a_day, monday_to_friday, weekend; tauto.
Qed.

Lemma check_start_time_stores d h m c d' c' :
  check_start_time d h m c = Ok (d', true) c' ->
  exists h' m', accepted_time h' m' /\
    d' = long_distance_call_data.set_minute m'
           (long_distance_call_data.set_hour h' d).
Proof.
  intros H.
  destruct h as [h|];
    [|unfold check_start_time, bind, use in H; discriminate H].
  destruct (accepted_time_dec h 0) as [_ | [Hh | [Hh _]]].
  1,3: destruct m as [m|];
    [| unfold check_start_time, bind, use in H;
       destruct ((h <? 0) || (h >? 24)); discriminate H ].
  1,2: destruct (accepted_time_dec h m) as [Ha | [Hh' | [Hh' Hm]]];
    [ rewrite (check_start_time_accepts _ _ _ _ Ha) in H;
      injection H as <- _; now exists h, m
    | rewrite (check_start_time_hour _ _ _ _ Hh') in H; discriminate H
    | rewrite (check_start_time_minutes _ _ _ _ Hh' Hm) in H; discriminate H ].
  rewrite (check_start_time_hour _ _ _ _ Hh) in H. discriminate H.
Qed.

Lemma decimal_value_prefix_nonneg buf : 0 <= decimal_value (numeric_prefix buf).
Proof.
  unfold decimal_value. rewrite <- read_digits_value.
  apply read_digits_nonneg. lia.
Qed.

Lemma check_length_of_call_stores d buf c d' c' :
  check_length_of_call d buf c = Ok (d', true) c' ->
  exists n, 0 <= n <= INT_MAX /\
    d' = long_distance_call_data.set_length_of_call n d.
Proof.
  intros H. unfold check_length_of_call, bind, use in H.
  destruct buf as [buf|]; [|discriminate H].
  destruct (isdigit (first_char buf)) eqn:Hd; simpl in H; [|discriminate H].
  rewrite (stoi_digit_leading buf Hd) in H.
  destruct (decimal_value (numeric_prefix buf) >? INT_MAX) eqn:Hgt;
    [discriminate H|].
  injection H as <- _. exists (decimal_value (numeric_prefix buf)).
  split; [|reflexivity].
  pose proof (decimal_value_prefix_nonneg buf).
  rewrite Z.gtb_ltb in Hgt. apply Z.ltb_ge in Hgt. lia.
Qed.

(** Whatever is typed, when [get_day_of_week] returns it has set the
    weekday to one of the seven days and changed nothing else. *)
Theorem get_day_of_week_sets_only_weekday fuel d c d' c' :
  get_day_of_week fuel d c = Ok d' c' ->
  exists w, a_day w /\ d' = long_distance_call_data.set_weekday w d.
Proof.
  unfold get_day_of_week.
  apply (while_not_relates
           (fun d d' => exists w, a_day w /\
                          d' = long_distance_call_data.set_weekday w d)).
  - apply get_day_of_week_body_rejected.
  - intros d0 c0 d1 c1. rewrite get_day_of_week_body_unfold.
    destruct (read_two_letters _) as [r c2| | |]; try discriminate.
    apply select_weekday_stores.
Qed.

Lemma get_day_of_week_sets_only_weekday_witness :
  exists w, a_day w /\
    long_distance_call_data.mk weekday.Friday 7 15 3
    = long_distance_call_data.set_weekday w
        (long_distance_call_data.mk weekday.Monday 7 15 3).
Proof.
  apply (get_day_of_week_sets_only_weekday 3
           (long_distance_call_data.mk weekday.Monday 7 15 3)
           (stdin ["9x"; "tz"; "fr"])
           (long_distance_call_data.mk weekday.Friday 7 15 3)
           (mk_console EmptyString false (day_prompt ++ day_prompt ++ day_prompt))).
  reflexivity.
Defined.

(** Whatever is typed, when [get_start_time] returns it has set the hour
    and the minutes to an acceptable start time (hour 0..24, minutes
    0..59, minutes 0 at hour 24) and changed nothing else. *)
Theorem get_start_time_sets_only_time fuel d c d' c' :
  get_start_time fuel d c = Ok d' c' ->
  exists h m, accepted_time h m /\
    d' = long_distance_call_data.set_minute m
           (long_distance_call_data.set_hour h d).
Proof.
  unfold get_start_time.
  apply (while_not_relates
           (fun d d' => exists h m, accepted_time h m /\
              d' = long_distance_call_data.set_minute m
                     (long_distance_call_data.set_hour h d))).
  - apply get_start_time_body_rejected.
  - intros d0 c0 d1 c1. rewrite get_start_time_body_unfold.
    destruct (read_hour_minutes _) as [r c2| | |]; try discriminate.
    apply check_start_time_stores.
Qed.

Lemma get_start_time_sets_only_time_witness :
  exists h m, accepted_time h m /\
    long_distance_call_data.mk weekday.Friday 24 0 3
    = long_distance_call_data.set_minute m
        (long_distance_call_data.set_hour h
           (long_distance_call_data.mk weekday.Friday 7 15 3)).
Proof.
  apply (get_start_time_sets_only_time 3
           (long_distance_call_data.mk weekday.Friday 7 15 3)
           (stdin ["24:30"; "-1:00"; "24:00"])
           (long_distance_call_data.mk weekday.Friday 24 0 3)
           (mk_console EmptyString false
              (time_prompt ++ invalid_minutes_message ++ time_prompt
               ++ invalid_hour_message ++ time_prompt))).
  reflexivity.
Defined.

(** Whatever is typed, when [get_length_of_call] returns it has set the
    length to a number in 0..INT_MAX (never a negative one) and changed
    nothing else. *)
Theorem get_length_of_call_sets_only_length fuel d c d' c' :
  get_length_of_call fuel d c = Ok d' c' ->
  exists n, 0 <= n <= INT_MAX /\
    d' = long_distance_call_data.set_length_of_call n d.
Proof.
  unfold get_length_of_call.
  apply (while_not_relates
           (fun d d' => exists n, 0 <= n <= INT_MAX /\
              d' = long_distance_call_data.set_length_of_call n d)).
  - apply get_length_of_call_body_rejected.
  - intros d0 c0 d1 c1. rewrite get_length_of_call_body_unfold.
    destruct (read_length_text _) as [r c2| | |]; try discriminate.
    apply check_length_of_call_stores.
Qed.

Lemma get_length_of_call_sets_only_length_witness :
  exists n, 0 <= n <= INT_MAX /\
    long_distance_call_data.mk weekday.Friday 7 15 42
    = long_distance_call_data.set_length_of_call n
        (long_distance_call_data.mk weekday.Friday 7 15 3).
Proof.
  apply (get_length_of_call_sets_only_length 2
           (long_distance_call_data.mk weekday.Friday 7 15 3)
           (stdin ["-42"; "42"])
           (long_distance_call_data.mk weekday.Friday 7 15 42)
           (mk_console EmptyString false
              (length_prompt ++ invalid_number_message ++ length_prompt))).
  reflexivity.
Defined.

Lemma get_day_of_week_post fuel d c d' c' :
  get_day_of_week fuel d c = Ok d' c' ->
  exists w, a_day w /\ d' = long_distance_call_data.set_weekday w d.
Proof.
  unfold get_day_of_week.
  apply (while_not_relates
           (fun d d' => exists w, a_day w /\
                          d' = long_distance_call_data.set_weekday w d)).
  - apply get_day_of_week_body_rejected.
  - intros d0 c0 d1 c1. rewrite get_day_of_week_body_unfold.
    destruct (read_two_letters _) as [r c2| | |]; try discriminate.
    apply select_weekday_stores.
Qed.

Lemma get_start_time_post fuel d c d' c' :
  get_start_time fuel d c = Ok d' c' ->
  exists h m, accepted_time h m /\
    d' = long_distance_call_data.set_minute m
           (long_distance_call_data.set_hour h d).
Proof.
  unfold get_start_time.
  apply (while_not_relates
           (fun d d' => exists h m, accepted_time h m /\
              d' = long_distance_call_data.set_minute m
                     (long_distance_call_data.set_hour h d))).
  - apply get_start_time_body_rejected.
  - intros d0 c0 d1 c1. rewrite get_start_time_body_unfold.
    destruct (read_hour_minutes _) as [r c2| | |]; try discriminate.
    apply check_start_time_stores.
Qed.

Lemma get_length_of_call_post fuel d c d' c' :
  get_length_of_call fuel d c = Ok d' c' ->
  exists n, 0 <= n <= INT_MAX /\
    d' = long_distance_call_data.set_length_of_call n d.
Proof.
  unfold get_length_of_call.
  apply (while_not_relates
           (fun d d' => exists n, 0 <= n <= INT_MAX /\
              d' = long_distance_call_data.set_length_of_call n d)).
  - apply get_length_of_call_body_rejected.
  - intros d0 c0 d1 c1. rewrite get_length_of_call_body_unfold.
    destruct (read_length_text _) as [r c2| | |]; try discriminate.
    apply check_length_of_call_stores.
Qed.

(** A record that has gone through the three readers in the order of
    [main] is valid in every field, whatever it held before and whatever
    was typed, and exactly one row of the rate table applies to it. *)
Theorem record_after_the_three_readers
    f1 f2 f3 (d d1 d2 d3 : long_distance_call_data.t) c0 c1 c1' c2 c2' c3 :
  get_day_of_week f1 d c0 = Ok d1 c1 ->
  get_start_time f2 d1 c1' = Ok d2 c2 ->
  get_length_of_call f3 d2 c2' = Ok d3 c3 ->
  a_day (long_distance_call_data.get_weekday d3) /\
  accepted_time (long_distance_call_data.get_hour d3)
                (long_distance_call_data.get_minutes d3) /\
  0 <= long_distance_call_data.get_length_of_call d3 <= INT_MAX /\
  (calculate_cost_of_call d3 = duration_times d3 15 \/
   calculate_cost_of_call d3 = duration_times d3 25 \/
   calculate_cost_of_call d3 = duration_times d3 40).
Proof.
  intros H1 H2 H3.
  apply get_day_of_week_post in H1 as (w & Hw & ->).
  apply get_start_time_post in H2 as (h & m & Ha & ->).
  apply get_length_of_call_post in H3 as (n & Hn & ->).
  simpl. repeat split; try apply Ha; try apply Hn; try exact Hw.
  set (r := long_distance_call_data.set_length_of_call n _).
  destruct Hw as [Hw | Hw].
  - destruct (Z_lt_le_dec h 8) as [Hlo | Hlo];
      [right; left; apply cost_edge; [exact Hw | left; exact Hlo]|].
    destruct (Z_lt_le_dec 18 h) as [Hhi | Hhi];
      [right; left; apply cost_edge; [exact Hw | right; exact Hhi]|].
    right; right. apply cost_normal; [exact Hw | simpl; lia].
  - left. apply cost_weekend. exact Hw.
Qed.

Lemma record_after_the_three_readers_witness :
  a_day weekday.Saturday /\ accepted_time 23 0 /\ 0 <= 60 <= INT_MAX.
Proof.
  pose proof (record_after_the_three_readers 1 1 1
    long_distance_call_data.default
    (long_distance_call_data.mk weekday.Saturday 24 0 0)
    (long_distance_call_data.mk weekday.Saturday 23 0 0)
    (long_distance_call_data.mk weekday.Saturday 23 0 60)
    (stdin ["Sa"]) (mk_console EmptyString false day_prompt)
    (stdin ["23:00"]) (mk_console EmptyString false time_prompt)
    (stdin ["60"]) (mk_console EmptyString false length_prompt)
    eq_refl eq_refl eq_refl) as (H1 & H2 & H3 & _).
  exact (conj H1 (conj H2 H3)).
Defined.

(** ** Exceptions *)

(** The only exception that leaves a round of [get_length_of_call] is
    [out_of_range], and only for a text that starts with a digit and whose
    leading number is above [INT_MAX]: the test on the first character
    keeps [invalid_argument] from being thrown. *)
Theorem get_length_of_call_throws_only_out_of_range d c e c' :
  get_length_of_call_body d c = Terminate e c' ->
  e = out_of_range /\
  exists buf,
    read_length_text (wrote c length_prompt) = Ok (Some buf) c' /\
    isdigit (first_char buf) = true /\
    INT_MAX < decimal_value (numeric_prefix buf).
Proof.
  rewrite get_length_of_call_body_unfold.
  destruct (read_length_text_pending (wrote c length_prompt))
    as (v & c1 & E & _). rewrite E.
  unfold check_length_of_call, bind, use. intros H.
  destruct v as [buf|]; [|discriminate H].
  destruct (isdigit (first_char buf)) eqn:Hd; simpl in H; [|discriminate H].
  rewrite (stoi_digit_leading buf Hd) in H.
  destruct (decimal_value (numeric_prefix buf) >? INT_MAX) eqn:Hgt;
    [|discriminate H].
  injection H as <- <-. split; [reflexivity|]. exists buf.
  repeat split; try assumption.
  rewrite Z.gtb_ltb in Hgt. now apply Z.ltb_lt in Hgt.
Qed.

Lemma get_length_of_call_throws_only_out_of_range_witness :
  out_of_range = out_of_range /\
  exists buf,
    read_length_text (wrote (stdin ["2147483648"]) length_prompt)
      = Ok (Some buf) (mk_console EmptyString false length_prompt) /\
    isdigit (first_char buf) = true /\
    INT_MAX < decimal_value (numeric_prefix buf).
Proof.
  apply (get_length_of_call_throws_only_out_of_range
           long_distance_call_data.default (stdin ["2147483648"])).
  reflexivity.
Defined.

Lemma while_not_no_exception body :
  (forall d c e c', body d c <> Terminate e c') ->
  forall fuel d c e c', while_not fuel body d c <> Terminate e c'.
Proof.
  intros Hbody. induction fuel as [|fuel IH]; intros d c e c'; [discriminate|].
  simpl. unfold bind.
  destruct (body d c) as [[d1 [|]] c1| | |] eqn:E; try discriminate.
  - apply IH.
  - intros H. injection H as -> ->. exact (Hbody _ _ _ _ E).
Qed.

(** No exception leaves [get_day_of_week] or [get_start_time], whatever
    is typed. *)
Theorem weekday_and_time_readers_throw_nothing fuel d c e c' :
  get_day_of_week fuel d c <> Terminate e c' /\
  get_start_time fuel d c <> Terminate e c'.
Proof.
  split.
  - apply while_not_no_exception. clear. intros d c e c'.
    rewrite get_day_of_week_body_unfold.
    destruct (read_two_letters_pending (wrote c day_prompt))
      as (v1 & v2 & c1 & E & _). rewrite E.
    intros H. unfold select_weekday, bind, use, print, ret in H.
    simpl in H. split_cases H.
  - apply while_not_no_exception. clear. intros d c e c'.
    rewrite get_start_time_body_unfold.
    destruct (read_hour_minutes_pending (wrote c time_prompt))
      as (v1 & v2 & c1 & E & _). rewrite E.
    intros H. unfold check_start_time, bind, use, endl, print, ret in H.
    simpl in H. split_cases H.
Qed.

(** ** The other branches of Read weekday *)

(** When one of the two characters read is not a letter, the round keeps
    the record, writes nothing after the prompt (no message) and the loop
    goes round again. *)
Theorem get_day_of_week_non_alphabetic_is_silent
    (d : long_distance_call_data.t) (c c' : console) (f s : ascii) :
  read_two_letters (wrote c day_prompt) = Ok (Some f, Some s) c' ->
  isalpha f && isalpha s = false ->
  get_day_of_week_body d c = Ok (d, false) c' /\
  cout c' = cout c ++ day_prompt /\
  forall fuel, get_day_of_week (S fuel) d c = get_day_of_week fuel d c'.
Proof.
  intros Hread Halpha.
  assert (H : get_day_of_week_body d c = Ok (d, false) c').
  { rewrite get_day_of_week_body_unfold, Hread.
    unfold select_weekday, bind, use, ret. simpl.
    destruct (isalpha f); simpl in *; [|reflexivity]. now rewrite Halpha. }
  split; [exact H|]. split; [apply (read_two_letters_cout _ _ _ Hread)|].
  intros fuel. unfold get_day_of_week.
  now rewrite (while_not_round fuel _ d c _ false _ H).
Qed.

Lemma get_day_of_week_non_alphabetic_is_silent_witness :
  get_day_of_week_body long_distance_call_data.default (stdin ["M0"; "Mo"])
  = Ok (long_distance_call_data.default, false)
       (mk_console (lines ["Mo"]) false day_prompt).
Proof.
  refine (proj1 (get_day_of_week_non_alphabetic_is_silent
            long_distance_call_data.default (stdin ["M0"; "Mo"])
            (mk_console (lines ["Mo"]) false day_prompt) "M" "0" _ _));
    reflexivity.
Defined.

(** When the first letter is [s] or [S] and the second is none of [a],
    [A], [u], [U], the round keeps the record, writes no message and the
    loop goes round again. *)
Theorem get_day_of_week_s_other_is_silent
    (d : long_distance_call_data.t) (c c' : console) (f s : ascii) :
  read_two_letters (wrote c day_prompt) = Ok (Some f, Some s) c' ->
  is_letter f "s" "S" = true ->
  is_letter s "a" "A" = false -> is_letter s "u" "U" = false ->
  get_day_of_week_body d c = Ok (d, false) c' /\
  cout c' = cout c ++ day_prompt /\
  forall fuel, get_day_of_week (S fuel) d c = get_day_of_week fuel d c'.
Proof.
  intros Hread Hf Ha Hu.
  assert (H : get_day_of_week_body d c = Ok (d, false) c').
  { rewrite get_day_of_week_body_unfold, Hread.
    destruct (tolower_is_letter s) as (_ & _ & _ & _ & _ & Eu & _ & Ea).
    rewrite <- Eu in Hu. rewrite <- Ea in Ha.
    unfold select_weekday, bind, use, ret.
    destruct (is_letter_cases _ _ _ Hf) as [-> | ->]; simpl;
      destruct (isalpha s); simpl; try reflexivity;
      rewrite Ha, Hu; reflexivity. }
  split; [exact H|]. split; [apply (read_two_letters_cout _ _ _ Hread)|].
  intros fuel. unfold get_day_of_week.
  now rewrite (while_not_round fuel _ d c _ false _ H).
Qed.

Lemma get_day_of_week_s_other_is_silent_witness :
  get_day_of_week_body long_distance_call_data.default (stdin ["So"; "Su"])
  = Ok (long_distance_call_data.default, false)
       (mk_console (lines ["Su"]) false day_prompt).
Proof.
  refine (proj1 (get_day_of_week_s_other_is_silent
            long_distance_call_data.default (stdin ["So"; "Su"])
            (mk_console (lines ["Su"]) false day_prompt) "S" "o" _ _ _ _));
    reflexivity.
Defined.

(** When both characters are letters and the first is none of [m], [t],
    [w], [f], [s] in either case, the round keeps the record, writes "You
    entered an invalid weekday." once, and the loop goes round again. *)
Theorem get_day_of_week_unknown_first_letter
    (d : long_distance_call_data.t) (c c' : console) (f s : ascii) :
  read_two_letters (wrote c day_prompt) = Ok (Some f, Some s) c' ->
  isalpha f = true -> isalpha s = true ->
  is_letter f "m" "M" = false -> is_letter f "t" "T" = false ->
  is_letter f "w" "W" = false -> is_letter f "f" "F" = false ->
  is_letter f "s" "S" = false ->
  get_day_of_week_body d c = Ok (d, false) (wrote c' invalid_weekday_message) /\
  cout c' = cout c ++ day_prompt /\
  forall fuel, get_day_of_week (S fuel) d c
               = get_day_of_week fuel d (wrote c' invalid_weekday_message).
Proof.
  intros Hread Hf Hs Hm Ht Hw Hff Hss.
  assert (H : get_day_of_week_body d c
              = Ok (d, false) (wrote c' invalid_weekday_message)).
  { rewrite get_day_of_week_body_unfold, Hread.
    now apply select_weekday_default. }
  split; [exact H|]. split; [apply (read_two_letters_cout _ _ _ Hread)|].
  intros fuel. unfold get_day_of_week.
  now rewrite (while_not_round fuel _ d c _ false _ H).
Qed.

Lemma get_day_of_week_unknown_first_letter_witness :
  get_day_of_week_body long_distance_call_data.default (stdin ["No"; "Mo"])
  = Ok (long_distance_call_data.default, false)
       (mk_console (lines ["Mo"]) false (day_prompt ++ invalid_weekday_message)).
Proof.
  refine (proj1 (get_day_of_week_unknown_first_letter
            long_distance_call_data.default (stdin ["No"; "Mo"])
            (mk_console (lines ["Mo"]) false day_prompt) "N" "o"
            _ _ _ _ _ _ _ _)); reflexivity.
Defined.

Lemma drop_line_junk junk rest :
  no_newline junk = true -> drop_line (junk ++ String newline rest) = rest.
Proof.
  induction junk as [|ch junk IH]; simpl; [reflexivity|].
  intros H. apply andb_true_iff in H as [Hch Hjunk].
  apply negb_true_iff in Hch. rewrite Hch. now apply IH.
Qed.

Lemma skipws_non_space ch rest :
  isspace ch = false -> skipws (String ch rest) = String ch rest.
Proof. intros H. simpl. now rewrite H. Qed.

(** Only the first two characters of the line typed count: whatever
    follows them on the line is discarded, and the text after the newline
    is left for the next prompt (so [Monday] is read as [Mo]). *)
Theorem get_day_of_week_uses_two_letters_of_the_line
    (d : long_distance_call_data.t) (f s : ascii) (junk rest out : string) :
  isspace f = false -> isspace s = false -> no_newline junk = true ->
  get_day_of_week_body d
    (mk_console (String f (String s (junk ++ String newline rest))) false out)
  = select_weekday d (Some f) (Some s)
      (mk_console rest false (out ++ day_prompt)).
Proof.
  intros Hf Hs Hjunk.
  rewrite get_day_of_week_body_unfold.
  unfold read_two_letters, bind, extract_char, ignore_line, ret, wrote.
  cbn [cin failbit cout]. rewrite (skipws_non_space f _ Hf).
  cbn [cin failbit cout]. rewrite (skipws_non_space s _ Hs).
  cbn [cin failbit cout fst snd]. now rewrite (drop_line_junk junk rest Hjunk).
Qed.

Lemma get_day_of_week_uses_two_letters_of_the_line_witness :
  get_day_of_week_body long_distance_call_data.default
    (mk_console (String "W" (String "e" ("dnesday" ++ String newline "12:00")))
       false EmptyString)
  = select_weekday long_distance_call_data.default (Some "W"%char) (Some "e"%char)
      (mk_console "12:00" false (EmptyString ++ day_prompt)).
Proof.
  apply (get_day_of_week_uses_two_letters_of_the_line
           long_distance_call_data.default "W" "e" "dnesday" "12:00" EmptyString);
    reflexivity.
Defined.

(** ** What a round of Read start time writes *)

Lemma extract_int_cout v c c' : extract_int c = Ok v c' -> cout c' = cout c.
Proof.
  unfold extract_int. intros H.
  destruct (failbit c); [now inversion H|].
  destruct (skipws (cin c)) as [|ch rest]; [now inversion H|].
  destruct (scan_int (String ch rest)) as [[n good] rest'].
  now inversion H.
Qed.

Lemma read_hour_minutes_cout r c c' :
  read_hour_minutes c = Ok r c' -> cout c' = cout c.
Proof.
  unfold read_hour_minutes, ret. intros H.
  apply bind_Ok in H as (v1 & c1 & E1 & H).
  apply bind_Ok in H as (v2 & c2 & E2 & H).
  apply bind_Ok in H as (v3 & c3 & E3 & H).
  apply bind_Ok in H as ([] & c4 & E4 & H).
  inversion H; subst.
  rewrite (ignore_line_cout _ _ E4), (extract_int_cout _ _ _ E3),
    (extract_char_cout _ _ _ E2).
  apply (extract_int_cout _ _ _ E1).
Qed.

(** A round of [get_start_time] that accepts writes the prompt and
    nothing else; a round that rejects writes the prompt and exactly one
    of the two messages, never both. *)
Theorem get_start_time_round_output
    (d d' : long_distance_call_data.t) (c c' : console) (valid : bool) :
  get_start_time_body d c = Ok (d', valid) c' ->
  (valid = true /\ cout c' = cout c ++ time_prompt) \/
  (valid = false /\
   (cout c' = cout c ++ time_prompt ++ invalid_hour_message \/
    cout c' = cout c ++ time_prompt ++ invalid_minutes_message)).
Proof.
  rewrite get_start_time_body_unfold.
  destruct (read_hour_minutes (wrote c time_prompt)) as [[h m] c1| | |] eqn:E;
    try discriminate.
  apply read_hour_minutes_cout in E. simpl in E. simpl fst; simpl snd.
  intros H.
  destruct h as [h|];
    [|unfold check_start_time, bind, use in H; discriminate H].
  assert (Hdec : 0 <= h <= 24 \/ ~ 0 <= h <= 24) by lia.
  destruct Hdec as [Hh | Hh].
  - destruct m as [m|].
    + destruct (accepted_time_dec h m) as [Ha | [Hh' | [Hh' Hm]]].
      * rewrite (check_start_time_accepts _ _ _ _ Ha) in H.
        injection H as _ <- <-. left; split; [reflexivity | exact E].
      * contradiction.
      * rewrite (check_start_time_minutes _ _ _ _ Hh' Hm) in H.
        injection H as _ <- <-. right; split; [reflexivity|]. right.
        simpl. rewrite E. apply append_assoc.
    + unfold check_start_time, bind, use in H.
      rewrite (hour_in_range _ Hh) in H. discriminate H.
  - rewrite (check_start_time_hour _ _ _ _ Hh) in H.
    injection H as _ <- <-. right; split; [reflexivity|]. left.
    simpl. rewrite E. apply append_assoc.
Qed.

Lemma get_start_time_round_output_witness :
  (false = true /\ time_prompt ++ invalid_hour_message = EmptyString ++ time_prompt) \/
  (false = false /\
   (time_prompt ++ invalid_hour_message
      = EmptyString ++ time_prompt ++ invalid_hour_message \/
    time_prompt ++ invalid_hour_message
      = EmptyString ++ time_prompt ++ invalid_minutes_message)).
Proof.
  apply (get_start_time_round_output long_distance_call_data.default
           long_distance_call_data.default (stdin ["30:99"])
           (mk_console EmptyString false (time_prompt ++ invalid_hour_message))
           false).
  reflexivity.
Defined.

(** With something other than a number where the hour is expected, the
    extraction of the hour fails and stores 0, the minutes are never
    written, and the round goes on to test the minutes: the use of a
    variable that nothing has written.  The record is not changed and
    only the prompt has been written. *)
Theorem get_start_time_letters_for_hour
    (d : long_distance_call_data.t) (c : console) (ch : ascii) (rest : string)
    (fuel : nat) :
  failbit c = false ->
  skipws (cin c) = String ch rest ->
  starts_with_digit (snd (read_sign (String ch rest))) = false ->
  get_start_time (S fuel) d c
  = Indeterminate (mk_console (snd (read_sign (String ch rest))) true
                     (cout c ++ time_prompt)).
Proof.
  intros Hf Hs Hd. unfold get_start_time. cbn [while_not]. unfold bind at 1.
  rewrite get_start_time_body_unfold.
  unfold read_hour_minutes, bind, extract_int, wrote. cbn [cin failbit cout].
  rewrite Hf, Hs. unfold scan_int.
  destruct (read_sign (String ch rest)) as [negative s1]. cbn [snd] in Hd |- *.
  rewrite Hd. reflexivity.
Qed.

Lemma get_start_time_letters_for_hour_witness :
  get_start_time 1 long_distance_call_data.default (stdin ["noon"; "12:00"])
  = Indeterminate (mk_console (lines ["noon"; "12:00"]) true time_prompt).
Proof.
  apply (get_start_time_letters_for_hour long_distance_call_data.default
           (stdin ["noon"; "12:00"]) "n" (lines ["oon"; "12:00"]) 0);
    reflexivity.
Defined.

(** ** The session at its ends *)

(** On standard input that holds nothing but white space (the empty
    input included), the program greets, prompts for the weekday and then
    tests letters that were never read: it neither returns nor asks
    again. *)
Theorem run_on_blank_input (input : string) (fuel : nat) :
  skipws input = EmptyString ->
  run (S fuel) input
  = Indeterminate (mk_console EmptyString true (hello ++ day_prompt)).
Proof.
  intros Hblank. unfold run, main. unfold bind at 1.
  cbn [main_loop]. unfold bind at 1. unfold main_body. unfold bind at 1.
  cbn [print cin failbit cout]. unfold bind at 1.
  unfold get_day_of_week. cbn [while_not]. unfold bind at 1.
  rewrite get_day_of_week_body_unfold.
  unfold read_two_letters, bind, extract_char, wrote. cbn [cin failbit cout].
  rewrite Hblank. reflexivity.
Qed.

Lemma run_on_blank_input_witness :
  run 1 (lines [" "; EmptyString])
  = Indeterminate (mk_console EmptyString true (hello ++ day_prompt)).
Proof. apply (run_on_blank_input (lines [" "; EmptyString]) 0). reflexivity. Defined.



(** The switch on the answer to the continue prompt: [n] and [N] quit,
    [y] and [Y] go on silently, and every other character (the zero
    character left when nothing could be read included) goes on after
    "I'll take that as a yes". *)
Theorem answer_takes_anything_else_as_yes (q : ascii) (c : console) :
  answer q c
  = Ok (is_letter q "n" "N")
       (if is_letter q "n" "N" || is_letter q "y" "Y"
        then c else wrote c take_as_yes).
Proof.
  destruct (is_letter q "n" "N") eqn:E.
  - apply (answer_quits q c E).
  - rewrite (answer_continues q c E). reflexivity.
Qed.

(** ** More on the cost *)

(** A call of no duration costs exactly zero on every day and at every
    hour, and is printed as [0.00]. *)
Theorem zero_duration_costs_nothing (r : long_distance_call_data.t) :
  long_distance_call_data.get_length_of_call r = 0 ->
  calculate_cost_of_call r = S754_zero false /\
  show_fixed2 (calculate_cost_of_call r) = "0.00".
Proof.
  intros H. unfold calculate_cost_of_call. rewrite H.
  destruct (_ || _); [split; reflexivity|].
  destruct (_ || _); split; reflexivity.
Qed.

Lemma zero_duration_costs_nothing_witness :
  calculate_cost_of_call (long_distance_call_data.mk weekday.Friday 12 30 0)
  = S754_zero false.
Proof.
  apply (zero_duration_costs_nothing
           (long_distance_call_data.mk weekday.Friday 12 30 0)).
  reflexivity.
Defined.

(** For a call of up to 10080 minutes (a week) the cost that is printed
    is the exact amount in dollars and cents: 15 cents a minute at the
    weekend, 25 cents from Monday to Friday before hour 8 and after hour
    18, 40 cents from hour 8 to hour 18.  The rounding of the binary32
    product does not show. *)
Theorem printed_cost_of_call_is_exact (r : long_distance_call_data.t) :
  0 <= long_distance_call_data.get_length_of_call r <= 10080 ->
  (weekend (long_distance_call_data.get_weekday r) ->
   show_fixed2 (calculate_cost_of_call r)
   = show_cents (15 * long_distance_call_data.get_length_of_call r)) /\
  (monday_to_friday (long_distance_call_data.get_weekday r) ->
   long_distance_call_data.get_hour r < 8 \/
   18 < long_distance_call_data.get_hour r ->
   show_fixed2 (calculate_cost_of_call r)
   = show_cents (25 * long_distance_call_data.get_length_of_call r)) /\
  (monday_to_friday (long_distance_call_data.get_weekday r) ->
   8 <= long_distance_call_data.get_hour r <= 18 ->
   show_fixed2 (calculate_cost_of_call r)
   = show_cents (40 * long_distance_call_data.get_length_of_call r)).
Proof.
  intros Hn. split; [|split].
  - intros Hw. rewrite (cost_weekend r Hw).
    apply printed_cost_is_exact; [simpl; tauto | exact Hn].
  - intros Hw Hh. rewrite (cost_edge r Hw Hh).
    apply printed_cost_is_exact; [simpl; tauto | exact Hn].
  - intros Hw Hh. rewrite (cost_normal r Hw Hh).
    apply printed_cost_is_exact; [simpl; tauto | exact Hn].
Qed.

Lemma printed_cost_of_call_is_exact_witness :
  show_fixed2 (calculate_cost_of_call
                 (long_distance_call_data.mk weekday.Tuesday 19 5 7))
  = show_cents (25 * 7).
Proof.
  refine (proj1 (proj2 (printed_cost_of_call_is_exact
            (long_distance_call_data.mk weekday.Tuesday 19 5 7) _)) _ _).
  - simpl; lia.
  - right; left; reflexivity.
  - right; simpl; lia.
Defined.

(** ** Witnesses for Read call length *)

Lemma get_length_of_call_rejects_non_digit_witness :
  get_length_of_call_body long_distance_call_data.default (stdin ["+5"; "5"])
  = Ok (long_distance_call_data.default, false)
       (wrote (mk_console (lines ["5"]) false length_prompt)
          invalid_number_message).
Proof.
  refine (proj1 (get_length_of_call_rejects_non_digit
            long_distance_call_data.default (stdin ["+5"; "5"])
            (mk_console (lines ["5"]) false length_prompt) "+5" _ _));
    reflexivity.
Defined.


Lemma weekday_and_time_readers_throw_nothing_witness :
  get_start_time 2 long_distance_call_data.default
    (stdin ["99999999999:00"; "12:00"])
  <> Terminate out_of_range (mk_console EmptyString true EmptyString).
Proof.
  apply (proj2 (weekday_and_time_readers_throw_nothing 2
                  long_distance_call_data.default
                  (stdin ["99999999999:00"; "12:00"]) out_of_range
                  (mk_console EmptyString true EmptyString))).
Defined.
